(** * camels_de1h: identifier mapping and station records

    A shallow embedding of [camels_de1h/util.py] and
    [camels_de1h/station.py], and the properties of the mapping,
    the metadata table and the time-series save path.

    Modelling conventions.
    - The file system is the tree below [OUTPUT_PATH]: a finite map from
      paths (lists of components) to files.  Directories are implicit, so
      [mkdir(parents=True, exist_ok=True)] changes nothing and a write
      always succeeds.
    - A table file holds its rows, each cell as the text that was
      written.  Where the code compares a cell of a table that
      [pd.read_csv] has read, the type that the reader gives the column
      decides (module [Csv]); how numbers are written back, and as what
      [json.dump] writes them, is not modelled.
    - Python exceptions are values of [exn]; a computation is a function
      from the world to a result and a world, so that whatever was
      written before an exception was raised stays written.
    - Strings are ASCII, as the identifiers of the dataset are. *)

From Stdlib Require Import String Ascii ZArith QArith List Bool Lia Sorted Permutation.
From Stdlib Require OrderedTypeEx.
From stdpp Require Import gmap strings list fin_maps.

Local Open Scope string_scope.
Local Open Scope Z_scope.

(** ** Python values and exceptions *)

Inductive exn : Type :=
  | ValueError (msg : string)
  | FileNotFoundError (msg : string)
  | KeyError (msg : string)
  | TypeError (msg : string)
  | AttributeError (msg : string)
  | IndexError (msg : string).

Inductive result (A : Type) : Type :=
  | Ok (a : A)
  | Raise (e : exn).
Arguments Ok {A} a.
Arguments Raise {A} e.

(** ** Strings as Python uses them *)

Module PyStr.

(** [s.startswith(p)] *)
Fixpoint startswith (s p : string) : bool :=
  match p, s with
  | EmptyString, _ => true
  | String c p', String d s' => if Ascii.eqb c d then startswith s' p' else false
  | String _ _, EmptyString => false
  end.

(** [s[-n:]]: the last [n] characters, the whole string when it is shorter. *)
Definition last_chars (n : nat) (s : string) : string :=
  String.substring (String.length s - n) n s.

(** [s[:n]] *)
Definition first_chars (n : nat) (s : string) : string :=
  String.substring 0 n s.

Definition lower_ascii (c : ascii) : ascii :=
  let n := nat_of_ascii c in
  if ((65 <=? n)%nat && (n <=? 90)%nat)%bool then ascii_of_nat (n + 32) else c.

(** [s.lower()] *)
Fixpoint lower (s : string) : string :=
  match s with
  | EmptyString => EmptyString
  | String c s' => String (lower_ascii c) (lower s')
  end.

Definition is_space (c : ascii) : bool :=
  let n := nat_of_ascii c in
  ((n =? 32)%nat || ((9 <=? n)%nat && (n <=? 13)%nat))%bool.

Fixpoint lstrip (s : string) : string :=
  match s with
  | String c s' => if is_space c then lstrip s' else s
  | EmptyString => EmptyString
  end.

Fixpoint rev_string (s acc : string) : string :=
  match s with
  | EmptyString => acc
  | String c s' => rev_string s' (String c acc)
  end.

Definition strip (s : string) : string :=
  rev_string (lstrip (rev_string (lstrip s) EmptyString)) EmptyString.

Definition digit_of (c : ascii) : option Z :=
  let n := nat_of_ascii c in
  if ((48 <=? n)%nat && (n <=? 57)%nat)%bool then Some (Z.of_nat (n - 48)) else None.

(** The digits of an integer literal: a digit first, then digits with
    single underscores allowed between two of them. *)
Fixpoint digits (s : string) (acc : Z) (after_digit : bool) : option Z :=
  match s with
  | EmptyString => if after_digit then Some acc else None
  | String c s' =>
      match digit_of c with
      | Some d => digits s' (10 * acc + d) true
      | None =>
          if (Ascii.eqb c "_" && after_digit)%bool
          then digits s' acc false
          else None
      end
  end.

(** [int(s)] in base 10; [None] stands for the [ValueError] it raises. *)
Definition int (s : string) : option Z :=
  match strip s with
  | String "-" s' => option_map Z.opp (digits s' 0 false)
  | String "+" s' => digits s' 0 false
  | s' => digits s' 0 false
  end.

Definition ascii_of_digit (d : Z) : ascii := ascii_of_nat (48 + Z.to_nat d).

Fixpoint decimal_fuel (fuel : nat) (n : Z) (acc : string) : string :=
  match fuel with
  | O => acc
  | S fuel' =>
      let acc' := String (ascii_of_digit (n mod 10)) acc in
      if n <? 10 then acc' else decimal_fuel fuel' (n / 10) acc'
  end.

(** The decimal digits of a natural number [n >= 0]. *)
Definition decimal (n : Z) : string :=
  decimal_fuel (S (Z.to_nat (Z.log2 n))) n EmptyString.

Fixpoint zeros (k : nat) : string :=
  match k with
  | O => EmptyString
  | S k' => String "0" (zeros k')
  end.

Definition zfill (width : nat) (s : string) : string :=
  zeros (width - String.length s) ++ s.

(** [f"{n:05d}"]: the sign, when there is one, counts in the width. *)
Definition format_05d (n : Z) : string :=
  if n <? 0 then String "-" (zfill 4 (decimal (- n))) else zfill 5 (decimal n).

(** [max] of a non-empty sequence of strings, by code point. *)
Definition max (s0 : string) (l : list string) : string :=
  fold_left (fun m s => if String.ltb m s then s else m) l s0.

End PyStr.

(** ** Tables *)

(** A row of the identifier mapping, [nuts_mapping.csv] and [.json]. *)
Record Entry : Type := mkEntry {
  provider_id : string;
  nuts_id : string
}.

(** A row of a metadata table.  Every field but the key may be [None]. *)
Record MetaRow : Type := mkMetaRow {
  gauge_id : string;
  meta_provider_id : option string;
  gauge_name : option string;
  water_body_name : option string;
  federal_state : option string;
  lon : option Q;
  lat : option Q;
  easting : option Q;
  northing : option Q;
  elev_metadata : option Q;
  area_metadata : option Q;
  part_of_camelsp : option bool
}.

(** A column of a data frame: timestamps (nanoseconds since the epoch,
    with the name of the time zone when they carry one) or numbers, a
    missing number being [None]. *)
Inductive Series : Type :=
  | Datetimes (tz : option string) (stamps : list Z)
  | Numbers (cells : list (option Q)).

Inductive Index : Type :=
  | RangeIndex (n : nat)
  | DatetimeIndex (tz : option string) (stamps : list Z)
  | NumericIndex (cells : list (option Q)).

Record DataFrame : Type := mkDataFrame {
  index : Index;
  columns : list (string * Series)
}.

(** What [isinstance(data, pd.DataFrame)] tells apart. *)
Inductive pyobject : Type :=
  | PyDataFrame (df : DataFrame)
  | PyOther (repr : string).

Section Sorting.

Context {A : Type} (key : A -> string).

Fixpoint insert_by (x : A) (l : list A) : list A :=
  match l with
  | [] => [x]
  | y :: l' => if String.leb (key x) (key y) then x :: l else y :: insert_by x l'
  end.

(** [sort_values(key)] and [sorted(..., key=...)]: ascending by code
    point; rows with equal keys keep their order. *)
Definition sort_values (l : list A) : list A :=
  fold_right (fun x acc => insert_by x acc) [] l.

Definition sorted_by (l : list A) : Prop :=
  Sorted (fun x y => String.leb (key x) (key y) = true) l.

Fixpoint sorted_byb (l : list A) : bool :=
  match l with
  | x :: ((y :: _) as l') => String.leb (key x) (key y) && sorted_byb l'
  | _ => true
  end.

End Sorting.

(** ** The file system below [OUTPUT_PATH] *)

Abbreviation Path := (list string).

Inductive File : Type :=
  | MappingCsv (rows : list Entry)
  | MappingJson (rows : list Entry)
  | MetadataCsv (rows : list MetaRow)
  | DataCsv (index_label : string) (data : DataFrame)
  | RawCsv (data : DataFrame).

Record World : Type := mkWorld {
  files : gmap Path File;
  warned : list string
}.

(** ** Computations that read and write the world and may raise *)

Definition M (A : Type) : Type := World -> result A * World.

Definition ret {A} (a : A) : M A := fun w => (Ok a, w).

Definition raise {A} (e : exn) : M A := fun w => (Raise e, w).

Definition bind {A B} (m : M A) (k : A -> M B) : M B :=
  fun w =>
    match m w with
    | (Ok a, w') => k a w'
    | (Raise e, w') => (Raise e, w')
    end.

Notation "'let*' x := m 'in' k" := (bind m (fun x => k))
  (at level 10, x name, m at level 100, k at level 200).
Notation "'do' m 'then' k" := (bind m (fun _ => k))
  (at level 10, m at level 100, k at level 200).

Definition lift {A} (r : result A) : M A := fun w => (r, w).

Definition exists_ (p : Path) : M bool :=
  fun w => (Ok (bool_decide (is_Some (files w !! p))), w).

Definition read_file (p : Path) : M (option File) :=
  fun w => (Ok (files w !! p), w).

Definition write_file (p : Path) (f : File) : M unit :=
  fun w => (Ok tt, mkWorld (<[p := f]> (files w)) (warned w)).

(** [warnings.warn(msg)] *)
Definition warn (msg : string) : M unit :=
  fun w => (Ok tt, mkWorld (files w) (warned w ++ [msg])).

(** [mkdir(parents=True, exist_ok=True)] *)
Definition mkdir (p : Path) : M unit := ret tt.

Definition path_str (p : Path) : string :=
  fold_left (fun acc c => acc ++ "/" ++ c) p "".

(** [p / c] on [pathlib.Path] *)
Definition joinpath (p : Path) (c : string) : Path := (p ++ [c])%list.
Infix "//" := joinpath (at level 40, left associativity).

(** ** util.py *)

Definition OUTPUT_PATH : Path := [].

Definition _INPUT_DEFAULT_PATHS : list (string * string) :=
  [ ("DE1", "BW_Baden_Wuerttemberg");
    ("DE2", "BY_Bayern");
    ("DE4", "BR_Brandenburg");
    ("DE7", "HE_Hessen");
    ("DE8", "MP_Mecklenburg_Vorpommern");
    ("DE9", "NiS_Niedersachsen");
    ("DEA", "NRW_Nordrhein_Westfalen");
    ("DEB", "RLP_Rheinland_Pfalz");
    ("DEC", "SL_Saarland");
    ("DED", "SN_Sachsen");
    ("DEE", "SA_Sachsen_Anhalt");
    ("DEF", "SH_Schleswig_Holstein");
    ("DEG", "TH_Thueringen") ].

(** [k in d] for a dict [d] *)
Definition in_dict (k : string) (d : list (string * string)) : bool :=
  existsb (fun kv => String.eqb k (fst kv)) d.

(** [x in column.values] *)
Definition in_values (x : string) (vs : list string) : bool :=
  existsb (String.eqb x) vs.

(** ** A column that [pd.read_csv] reads without a [dtype]

    The reader guesses the type of a column from its cells: numbers when
    every cell is a number or a missing value, booleans when every cell
    is a boolean or a missing value, and text otherwise.  Only in a
    column of text does a cell stay the string that was written, and
    there a missing value is not a string either.  A number beyond the
    range of the machine types, which the reader may keep as text, is
    taken as a number like the others. *)

Module Csv.

(** The words that are read as a missing value. *)
Definition na_values : list string :=
  [ EmptyString; "#N/A"; "#N/A N/A"; "#NA"; "-1.#IND"; "-1.#QNAN"; "-NaN"; "-nan";
    "1.#IND"; "1.#QNAN"; "<NA>"; "N/A"; "NA"; "NULL"; "NaN"; "None"; "n/a"; "nan";
    "null" ].

Definition is_na (s : string) : bool := in_values s na_values.

Definition is_bool (s : string) : bool :=
  in_values (PyStr.lower s) ["true"; "false"].

Definition is_digit (c : ascii) : bool :=
  match PyStr.digit_of c with Some _ => true | None => false end.

(** The digits at the head of [s] are dropped; the result says whether
    there was one. *)
Fixpoint skip_digits (s : string) (seen : bool) : bool * string :=
  match s with
  | String c s' => if is_digit c then skip_digits s' true else (seen, s)
  | EmptyString => (seen, s)
  end.

Definition skip_sign (s : string) : string :=
  match s with
  | String "+" s' => s'
  | String "-" s' => s'
  | _ => s
  end.

(** An exponent, if [s] starts with [e] or [E]: it needs a digit. *)
Definition skip_exponent (s : string) : option string :=
  match s with
  | String c s' =>
      if (Ascii.eqb c "e" || Ascii.eqb c "E")%bool
      then let (seen, rest) := skip_digits (skip_sign s') false in
           if seen then Some rest else None
      else Some s
  | EmptyString => Some s
  end.

(** A decimal number: blanks, a sign, digits with at most one point and
    at least one digit, an exponent, blanks. *)
Definition is_decimal (s : string) : bool :=
  let s := skip_sign (PyStr.lstrip s) in
  let (seen1, s) := skip_digits s false in
  let (seen2, s) :=
    match s with
    | String "." s' => skip_digits s' false
    | _ => (false, s)
    end in
  if (seen1 || seen2)%bool
  then match skip_exponent s with
       | Some rest =>
           match PyStr.lstrip rest with EmptyString => true | _ => false end
       | None => false
       end
  else false.

Definition is_infinity (s : string) : bool :=
  in_values (PyStr.lower s)
    ["inf"; "+inf"; "-inf"; "infinity"; "+infinity"; "-infinity"].

Definition is_number (s : string) : bool := (is_decimal s || is_infinity s)%bool.

(** The cell stays the string that it is, in a column of text. *)
Definition is_text (s : string) : bool :=
  negb (is_na s || is_number s || is_bool s)%bool.

(** The column is read as numbers or as booleans. *)
Definition typed_column (cells : list string) : bool :=
  match cells with
  | [] => false
  | _ => (forallb (fun c => is_number c || is_na c) cells
          || forallb (fun c => is_bool c || is_na c) cells)%bool
  end.

(** [x in column.values] for a string [x] and the column that was read
    from [cells]. *)
Definition contains (x : string) (cells : list string) : bool :=
  (negb (typed_column cells) && negb (is_na x) && in_values x cells)%bool.

End Csv.

(** The argument of [get_output_path]: [None], a string, or the
    [Series] that [.loc] gives for a label that occurs more than once. *)
Inductive pyid : Type :=
  | IdNone
  | IdStr (s : string)
  | IdSeries (vs : list string).

Definition get_output_path (camels_id : pyid) : result Path :=
  match camels_id with
  | IdNone => Ok OUTPUT_PATH
  | IdSeries _ => Raise (TypeError "unhashable type: 'Series'")
  | IdStr s =>
      if in_dict s _INPUT_DEFAULT_PATHS then Ok (OUTPUT_PATH // s)
      else if (String.length s =? 8)%nat
      then Ok (OUTPUT_PATH // PyStr.first_chars 3 s // s)
      else Raise (ValueError ("Given camels_id '" ++ s ++ "' not recognized."))
  end.

Definition nuts_mapping_csv : Path := OUTPUT_PATH // "metadata" // "nuts_mapping.csv".
Definition nuts_mapping_json : Path := OUTPUT_PATH // "metadata" // "nuts_mapping.json".
Definition metadata1h_csv : Path := OUTPUT_PATH // "metadata" // "metadata1h.csv".

(** [pd.read_csv] of the mapping table; a file without the two columns
    fails at the first use of one of them. *)
Definition read_mapping_csv (p : Path) : M (list Entry) :=
  let* f := read_file p in
  match f with
  | None => raise (FileNotFoundError ("No such file or directory: '" ++ path_str p ++ "'"))
  | Some (MappingCsv rows) => ret rows
  | Some _ => raise (AttributeError "'DataFrame' object has no attribute 'nuts_id'")
  end.

(** [mapping.set_index("provider_id").loc[provider_id, "nuts_id"]]: a
    scalar when the label occurs once, a [Series] when it occurs more
    often. *)
Definition loc_nuts_id (mapping : list Entry) (p : string) : result pyid :=
  match List.filter (fun e => String.eqb (provider_id e) p) mapping with
  | [] => Raise (KeyError p)
  | [e] => Ok (IdStr (nuts_id e))
  | es => Ok (IdSeries (map nuts_id es))
  end.

Definition update_nuts_mapping (provider_id_ bl : string) : M string :=
  if negb (in_dict bl _INPUT_DEFAULT_PATHS)
  then raise (ValueError (bl ++ " is not a valid NUTS ID."))
  else
    let csv_path := nuts_mapping_csv in
    let json_path := nuts_mapping_json in
    let* mapping := read_mapping_csv csv_path in
    let bl_mapping := List.filter (fun e => PyStr.startswith (nuts_id e) bl) mapping in
    if Csv.contains provider_id_ (map provider_id mapping)
    then raise (ValueError ("provider_id " ++ provider_id_ ++ " is already in the mapping"))
    else
      let* new_nuts_id :=
        match map nuts_id bl_mapping with
        | [] => ret (bl ++ "1000")
        | n0 :: ns =>
            let last_nuts_id := PyStr.max n0 ns in
            match PyStr.int (PyStr.last_chars 5 last_nuts_id) with
            | Some n => ret (bl ++ PyStr.format_05d (n + 10))
            | None =>
                raise (ValueError ("invalid literal for int() with base 10: '"
                                   ++ PyStr.last_chars 5 last_nuts_id ++ "'"))
            end
        end in
      let new_entry := [mkEntry provider_id_ new_nuts_id] in
      let updated_mapping := sort_values nuts_id (mapping ++ new_entry)%list in
      do write_file csv_path (MappingCsv updated_mapping) then
      do write_file json_path (MappingJson (sort_values nuts_id updated_mapping)) then
      ret new_nuts_id.

Definition get_nuts_id_from_provider_id (provider_id_ bl : string) (add_missing : bool)
  : M pyid :=
  let* mapping := read_mapping_csv nuts_mapping_csv in
  if Csv.contains provider_id_ (map provider_id mapping)
  then lift (loc_nuts_id mapping provider_id_)
  else if add_missing
  then (let* n := update_nuts_mapping provider_id_ bl in ret (IdStr n))
  else raise (ValueError ("Provider ID " ++ provider_id_ ++ " not found in mapping."))%string.

(** What [get_nuts_mapping] returns: the parsed JSON, a data frame of
    it, or nothing. *)
Inductive mapping_value : Type :=
  | AsJson (records : list Entry)
  | AsDataFrame (records : list Entry)
  | PyNone.

Definition get_nuts_mapping (format : string) : M mapping_value :=
  let fname := nuts_mapping_json in
  let* f := read_file fname in
  match f with
  | None =>
      raise (FileNotFoundError ("Can't find the nuts_mapping at " ++ path_str fname
                                ++ ", returning empty mapping."))
  | Some (MappingJson mapping) =>
      if String.eqb (PyStr.lower format) "json" then ret (AsJson mapping)
      else if in_values (PyStr.lower format) ["csv"; "df"; "dataframe"]
      then ret (AsDataFrame mapping)
      else ret PyNone
  | Some _ => raise (ValueError "Expecting value: line 1 column 1 (char 0)")
  end.

(** ** Data frames, as far as [station.py] uses them *)

Module Frame.

Definition has_column (c : string) (df : DataFrame) : bool :=
  existsb (fun kv => String.eqb c (fst kv)) (columns df).

Definition get_column (c : string) (df : DataFrame) : option Series :=
  option_map snd (find (fun kv => String.eqb c (fst kv)) (columns df)).

(** [len(df)] *)
Definition rows (df : DataFrame) : nat :=
  match index df with
  | RangeIndex n => n
  | DatetimeIndex _ stamps => length stamps
  | NumericIndex cells => length cells
  end.

(** [df[c] = None]: a new last column without values. *)
Definition assign_none (c : string) (df : DataFrame) : DataFrame :=
  mkDataFrame (index df) (columns df ++ [(c, Numbers (repeat None (rows df)))]).

(** [df[[c1; ...; cn]]]: the named columns in the given order; the
    labels that are not columns are listed in the [KeyError]. *)
Definition project (cs : list string) (df : DataFrame) : result DataFrame :=
  match List.filter (fun c => negb (has_column c df)) cs with
  | [] =>
      Ok (mkDataFrame (index df)
            (omap (fun c => option_map (pair c) (get_column c df)) cs))
  | missing =>
      Raise (KeyError ("['" ++ String.concat "', '" missing ++ "'] not in index"))
  end.

Definition index_of_series (s : Series) : Index :=
  match s with
  | Datetimes tz stamps => DatetimeIndex tz stamps
  | Numbers cells => NumericIndex cells
  end.

Definition series_of_index (i : Index) : Series :=
  match i with
  | RangeIndex n => Numbers (map (fun k => Some (inject_Z (Z.of_nat k))) (seq 0 n))
  | DatetimeIndex tz stamps => Datetimes tz stamps
  | NumericIndex cells => Numbers cells
  end.

(** [df.set_index(c)] *)
Definition set_index (c : string) (df : DataFrame) : result DataFrame :=
  match get_column c df with
  | Some s =>
      Ok (mkDataFrame (index_of_series s)
            (List.filter (fun kv => negb (String.eqb c (fst kv))) (columns df)))
  | None => Raise (KeyError ("None of ['" ++ c ++ "'] are in the columns"))
  end.

Definition cell_eqb (a b : option Q) : bool :=
  match a, b with
  | Some x, Some y => Qeq_bool x y
  | None, None => true
  | _, _ => false
  end.

Fixpoint has_duplicates {A} (eqb : A -> A -> bool) (l : list A) : bool :=
  match l with
  | [] => false
  | x :: l' => existsb (eqb x) l' || has_duplicates eqb l'
  end.

(** [index.duplicated().any()] *)
Definition duplicated_any (i : Index) : bool :=
  match i with
  | RangeIndex _ => false
  | DatetimeIndex _ stamps => has_duplicates Z.eqb stamps
  | NumericIndex cells => has_duplicates cell_eqb cells
  end.

Fixpoint pairwise {A} (r : A -> A -> bool) (l : list A) : bool :=
  match l with
  | x :: ((y :: _) as l') => r x y && pairwise r l'
  | _ => true
  end.

Definition cell_leb (a b : option Q) : bool :=
  match a, b with
  | Some x, Some y => Qle_bool x y
  | _, _ => false
  end.

(** [index.is_monotonic_increasing]: never decreasing; a missing value
    makes it false. *)
Definition is_monotonic_increasing (i : Index) : bool :=
  match i with
  | RangeIndex _ => true
  | DatetimeIndex _ stamps => pairwise Z.leb stamps
  | NumericIndex cells => forallb (fun c => bool_decide (is_Some c)) cells
                          && pairwise cell_leb cells
  end.

(** [pd.Timedelta("1H")] in nanoseconds *)
Definition one_hour : Z := 3600 * 1000000000.

(** [(index.to_series().diff().iloc[1:] == pd.Timedelta("1H")).all()]:
    a difference of numbers is never equal to a time delta. *)
Definition all_steps_one_hour (i : Index) : bool :=
  match i with
  | RangeIndex n => (n <=? 1)%nat
  | DatetimeIndex _ stamps => pairwise (fun a b => b - a =? one_hour) stamps
  | NumericIndex cells => (length cells <=? 1)%nat
  end.

(** [str(index.tz)]; only a datetime index has the attribute. *)
Definition tz_str (i : Index) : result string :=
  match i with
  | DatetimeIndex (Some z) _ => Ok z
  | DatetimeIndex None _ => Ok "None"
  | RangeIndex _ => Raise (AttributeError "'RangeIndex' object has no attribute 'tz'")
  | NumericIndex _ => Raise (AttributeError "'Index' object has no attribute 'tz'")
  end.

(** [df.columns.difference(cs)] *)
Definition columns_difference (df : DataFrame) (cs : list string) : list string :=
  List.filter (fun c => negb (in_values c cs)) (map fst (columns df)).

(** [pd.read_csv] of a file written with [to_csv(index=True,
    index_label=l)]: the index comes back as the column [l] of a frame
    with a range index.  The cells are kept as the values that were
    written; that the reader hands the time stamps back as text is not
    modelled. *)
Definition of_csv (index_label : string) (df : DataFrame) : DataFrame :=
  mkDataFrame (RangeIndex (rows df))
              ((index_label, series_of_index (index df)) :: columns df).

End Frame.

(** ** station.py *)

Record Station1h : Type := mkStation1h {
  self_gauge_id : string;
  self_output_path : Path;
  self_data_path : option Path;
  self_metadata : option (list MetaRow);
  self_name : option string;
  self_provider_id : option string;
  self_water_body_name : option string;
  self_bl : option string;
  self_lat : option Q;
  self_lon : option Q;
  self_northing : option Q;
  self_easting : option Q;
  self_elevation : option Q;
  self_area : option Q
}.

(** The object after [gauge_id], [output_path] and [data_path] are set. *)
Definition bare_station (g : string) (out : Path) (dp : option Path) : Station1h :=
  mkStation1h g out dp None None None None None None None None None None None.

Definition data_file (self : Station1h) : Path :=
  self_output_path self // (self_gauge_id self ++ "_data.csv").

Definition meta_file (self : Station1h) : Path :=
  self_output_path self // (self_gauge_id self ++ "_metadata.csv").

(** The dispatch of the constructor on its argument.  A frame built from
    an empty list of records has no columns, so that any use of
    [mapping.provider_id] fails. *)
Definition resolve (mapping : list Entry) (gauge_id_ : string) : result pyid :=
  match mapping with
  | [] => Raise (AttributeError "'DataFrame' object has no attribute 'provider_id'")
  | _ =>
      if in_values gauge_id_ (map provider_id mapping)
      then loc_nuts_id mapping gauge_id_
      else if in_values gauge_id_ (map nuts_id mapping)
      then Ok (IdStr gauge_id_)
      else Raise (ValueError (gauge_id_ ++ " is neither a provider_id nor a CAMELS-DE NUTSID. If it is a provider_id that you want to include in the dataset, please add it to the mapping first with get_nuts_id_from_provider_id(add_missing=True)."))
  end.

Definition has_metadata (self : Station1h) : M bool :=
  exists_ (meta_file self).

Definition get_metadata (self : Station1h) : M (list MetaRow) :=
  let* hm := has_metadata self in
  if negb hm
  then raise (FileNotFoundError ("No metadata found for station " ++ self_gauge_id self))
  else
    let* f := read_file (meta_file self) in
    match f with
    | Some (MetadataCsv rows) => ret rows
    | Some _ => raise (AttributeError "'DataFrame' object has no attribute 'gauge_name'")
    | None => raise (FileNotFoundError ("No such file or directory: '"
                                        ++ path_str (meta_file self) ++ "'"))
    end.

Definition Station1h_init (gauge_id_ : string) : M Station1h :=
  let* m := get_nuts_mapping "csv" in
  match m with
  | AsDataFrame mapping =>
      let* gid := lift (resolve mapping gauge_id_) in
      let* output_path := lift (get_output_path gid) in
      match gid with
      | IdStr g =>
          let data_file := output_path // (g ++ "_data.csv") in
          let* ex := exists_ data_file in
          let self := bare_station g output_path (if ex then Some data_file else None) in
          let* hm := has_metadata self in
          if hm
          then
            let* meta := get_metadata self in
            match meta with
            | r :: _ =>
                ret (mkStation1h g output_path (self_data_path self) (Some meta)
                       (gauge_name r) (meta_provider_id r) (water_body_name r)
                       (federal_state r) (lat r) (lon r) (northing r) (easting r)
                       (elev_metadata r) (area_metadata r))
            | [] => raise (IndexError "index 0 is out of bounds for axis 0 with size 0")
            end
          else ret self
      | _ => raise (TypeError "unhashable type: 'Series'")
      end
  | _ => raise (AttributeError "'list' object has no attribute 'provider_id'")
  end.

Definition save_data (self : Station1h) (data : pyobject) : M unit :=
  match data with
  | PyOther _ => raise (ValueError "Data must be a pandas dataframe.")
  | PyDataFrame data =>
      let data := if negb (Frame.has_column "discharge_vol_obs" data)
                  then Frame.assign_none "discharge_vol_obs" data else data in
      let data := if negb (Frame.has_column "water_level_obs" data)
                  then Frame.assign_none "water_level_obs" data else data in
      let* data := lift (Frame.project ["date"; "discharge_vol_obs"; "water_level_obs"] data) in
      let* data := (if Frame.has_column "date" data
              then lift (Frame.set_index "date" data) else ret data) in
      if Frame.duplicated_any (index data)
      then raise (ValueError (self_gauge_id self ++ ": Data contains duplicated dates."))
      else if negb (Frame.is_monotonic_increasing (index data))
      then raise (ValueError (self_gauge_id self ++ ": Data is not sorted by date."))
      else if negb (Frame.all_steps_one_hour (index data))
      then raise (ValueError (self_gauge_id self
                              ++ ": Not all dates are in hourly resolution."))
      else
        let* tz := lift (Frame.tz_str (index data)) in
        if negb (String.eqb tz "UTC")
        then raise (ValueError (self_gauge_id self
               ++ ": Data is not in UTC+0 or it misses the timezone information."))
        else
          let additional_columns :=
            Frame.columns_difference data ["discharge_vol_obs"; "water_level_obs"] in
          do (if (0 <? length additional_columns)%nat
           then warn (self_gauge_id self ++ ": Additional columns found: Index(['"
                      ++ String.concat "', '" additional_columns
                      ++ "'], dtype='object')")
           else ret tt) then
          do mkdir (self_output_path self) then
          write_file (data_file self) (DataCsv "date" data)
  end.

(** A file at the data path that [save_data] did not write has no column
    [date] to find. *)
Definition get_data (self : Station1h) (date_index : bool) : M DataFrame :=
  match self_data_path self with
  | None => raise (FileNotFoundError ("No data found for station " ++ self_gauge_id self))
  | Some p =>
      let* f := read_file p in
      match f with
      | None => raise (FileNotFoundError ("No such file or directory: '"
                                          ++ path_str p ++ "'"))
      | Some (DataCsv l d) =>
          let data := Frame.of_csv l d in
          if date_index then lift (Frame.set_index "date" data) else ret data
      | Some _ => raise (KeyError "date")
      end
  end.

Definition save_raw_metadata (self : Station1h) (metadata : pyobject) : M unit :=
  match metadata with
  | PyOther _ => raise (ValueError "Metadata must be a pandas dataframe.")
  | PyDataFrame md =>
      do mkdir (self_output_path self) then
      write_file (self_output_path self // (self_gauge_id self ++ "_raw_metadata.csv"))
                 (RawCsv md)
  end.

(** The row as [to_csv] writes it when its gauge id was read as a missing
    value: the cell is empty. *)
Definition blank_gauge_id (r : MetaRow) : MetaRow :=
  mkMetaRow EmptyString (meta_provider_id r) (gauge_name r) (water_body_name r)
            (federal_state r) (lon r) (lat r) (easting r) (northing r)
            (elev_metadata r) (area_metadata r) (part_of_camelsp r).

(** [sort_values("gauge_id")] of a table whose gauge ids were read as
    text: ascending by code point, the rows whose gauge id is a missing
    value last. *)
Definition sort_by_gauge_id (rows : list MetaRow) : list MetaRow :=
  (sort_values gauge_id (List.filter (fun r => negb (Csv.is_na (gauge_id r))) rows)
   ++ map blank_gauge_id (List.filter (fun r => Csv.is_na (gauge_id r)) rows))%list.

(** [save_metadata]; the twelve arguments are the fields of [row].  The
    numbers among them are the floats of the signature.  The cells of the
    table other than the gauge ids are kept: in what form [to_csv] writes
    back a cell that was read as a number or as a missing value is not
    modelled. *)
Definition save_metadata (self : Station1h) (row : MetaRow) : M unit :=
  do mkdir (self_output_path self) then
  let metadata := [row] in
  do write_file (meta_file self) (MetadataCsv metadata) then
  let* root := lift (get_output_path IdNone) in
  let table := root // "metadata" // "metadata1h.csv" in
  let* ex := exists_ table in
  if negb ex
  then write_file table (MetadataCsv metadata)
  else
    let* f := read_file table in
    match f with
    | Some (MetadataCsv meta) =>
        if Csv.contains (gauge_id row) (map gauge_id meta)
        then
          let meta := List.filter (fun r => negb (String.eqb (gauge_id r) (gauge_id row))) meta in
          let meta := sort_by_gauge_id (meta ++ metadata)%list in
          write_file table (MetadataCsv meta)
        else
          write_file table (MetadataCsv (meta ++ metadata)%list)
    | Some _ => raise (AttributeError "'DataFrame' object has no attribute 'gauge_id'")
    | None => raise (FileNotFoundError ("No such file or directory: '"
                                        ++ path_str table ++ "'"))
    end.

(** ** Definitions that the statements use *)

(** The registrations of [ps] for one region, one after the other, with
    what each of them returned. *)
Fixpoint register_all (ps : list string) (bl : string) (w : World) : list (result string) :=
  match ps with
  | [] => []
  | p :: ps' =>
      let (r, w') := update_nuts_mapping p bl w in
      r :: register_all ps' bl w'
  end.

(** The frame that reaches the projection: the two value columns are
    there, and [date] is there if and only if it was in the input. *)
Definition with_value_columns (data : DataFrame) : DataFrame :=
  let data := if negb (Frame.has_column "discharge_vol_obs" data)
              then Frame.assign_none "discharge_vol_obs" data else data in
  if negb (Frame.has_column "water_level_obs" data)
  then Frame.assign_none "water_level_obs" data else data.

(** The table that [save_metadata] leaves when it finds [meta]. *)
Definition upserted (row : MetaRow) (meta : list MetaRow) : list MetaRow :=
  if Csv.contains (gauge_id row) (map gauge_id meta)
  then sort_by_gauge_id
         (List.filter (fun r => negb (String.eqb (gauge_id r) (gauge_id row))) meta
          ++ [row])
  else meta ++ [row].

(** The table is sorted by gauge id, after the way of [sort_values]: the
    rows that have a gauge id in ascending order, then the rows whose
    cell is empty. *)
Definition sorted_by_gauge_id (rows : list MetaRow) : Prop :=
  exists present missing,
    rows = (present ++ missing)%list /\
    sorted_by gauge_id present /\
    Forall (fun r => Csv.is_na (gauge_id r) = false) present /\
    Forall (fun r => gauge_id r = EmptyString) missing.

(** ** Sample worlds, tables and frames *)

Definition empty_world : World := mkWorld ∅ [].

Definition world0 : World :=
  mkWorld (<[nuts_mapping_csv := MappingCsv []]> ∅) [].

Definition crossed_mapping : list Entry :=
  [mkEntry "4711" "DE110000"; mkEntry "DE110000" "DE210000"].

Definition one_station_world : World :=
  mkWorld (<[nuts_mapping_json := MappingJson [mkEntry "4711" "DE110000"]]> ∅) [].

Definition three_hours : DataFrame :=
  mkDataFrame (RangeIndex 3)
    [("date", Datetimes (Some "UTC") [0; Frame.one_hour; 2 * Frame.one_hour]);
     ("discharge_vol_obs", Numbers [Some (1 # 2)%Q; None; Some (3 # 1)%Q])].

Definition station_DE110000 : Station1h :=
  bare_station "DE110000" ["DE1"; "DE110000"] None.

Definition row_DE110000 (name : string) : MetaRow :=
  mkMetaRow "DE110000" (Some "4711") (Some name) (Some "Neckar") (Some "DE1")
            (Some (9 # 1)%Q) (Some (48 # 1)%Q) None None None None (Some false).

Definition row_DE210000 : MetaRow :=
  mkMetaRow "DE210000" (Some "16000708") (Some "Passau") (Some "Donau") (Some "DE2")
            None None None None None None (Some true).

Definition table_world (rows : list MetaRow) : World :=
  mkWorld (<[metadata1h_csv := MetadataCsv rows]> ∅) [].



(** ** The rest of util.py *)

(** [d[k]] for a key that is in [d] *)
Definition dict_get (k : string) (d : list (string * string)) : option string :=
  option_map snd (find (fun kv => String.eqb k (fst kv)) d).

(** [get_input_path]; the result is a path below [INPUT_PATH]. *)
Definition get_input_path (bl : string) : result Path :=
  if in_dict bl _INPUT_DEFAULT_PATHS
  then match dict_get bl _INPUT_DEFAULT_PATHS with
       | Some d => Ok ([] // "Q_and_W" // d)
       | None => Raise (KeyError bl)
       end
  else Raise (ValueError ("No default path for Bundesland " ++ bl ++ " available.")).

(** ** More definitions that the statements use *)

(** The identifiers of the mapping that start with a region code. *)
Definition region_ids (bl : string) (mapping : list Entry) : list string :=
  map nuts_id (List.filter (fun e => PyStr.startswith (nuts_id e) bl) mapping).

(** [g] is in [l] and no string of [l] is greater. *)
Definition greatest (g : string) (l : list string) : Prop :=
  In g l /\ forall x, In x l -> String.leb x g = true.

(** What [f"{n:05d}"] and [int] do with a number of five digits at most,
    as a test that can be run on every one of them. *)
Definition five_digits_ok (n : Z) : bool :=
  (String.length (PyStr.format_05d n) =? 5)%nat
  && match PyStr.int (PyStr.format_05d n) with
     | Some m => m =? n
     | None => false
     end
  && ((100000 <=? n + 10) || String.ltb (PyStr.format_05d n) (PyStr.format_05d (n + 10))).

(** The identifier starts with one of the thirteen region codes. *)
Definition has_region_prefix (s : string) : bool :=
  existsb (fun kv => PyStr.startswith s (fst kv)) _INPUT_DEFAULT_PATHS.


(** ** More sample worlds *)

Definition mapping_and_table_world : World :=
  mkWorld (<[metadata1h_csv := MetadataCsv [row_DE210000]]> (files world0)) [].

Definition two_regions : list Entry :=
  [mkEntry "4711" "DE110000"; mkEntry "16000708" "DE210000"].

Definition two_regions_world : World :=
  mkWorld (<[nuts_mapping_csv := MappingCsv two_regions]> ∅) [].

(** A computation that does not change the world, whatever it returns. *)
Definition pure {A} (m : M A) : Prop :=
  forall w r w', m w = (r, w') -> w' = w.

(** [n] timestamps, one hour apart, from [t0] on. *)
Definition hourly_from (t0 : Z) (n : nat) : list Z :=
  map (fun k => t0 + Z.of_nat k * Frame.one_hour) (seq 0 n).

(** The column [c] of the frame, or the column without values that
    [save_data] puts in its place. *)
Definition value_column (c : string) (data : DataFrame) : Series :=
  match Frame.get_column c data with
  | Some s => s
  | None => Numbers (repeat None (Frame.rows data))
  end.

(** The file that [save_data] writes for the timestamps [stamps]. *)
Definition data_csv (stamps : list Z) (data : DataFrame) : File :=
  DataCsv "date"
    (mkDataFrame (DatetimeIndex (Some "UTC") stamps)
       [("discharge_vol_obs", value_column "discharge_vol_obs" data);
        ("water_level_obs", value_column "water_level_obs" data)]).

Definition gap_frame : DataFrame :=
  mkDataFrame (RangeIndex 3)
    [("date", Datetimes (Some "UTC") [0; Frame.one_hour; 3 * Frame.one_hour]);
     ("water_level_obs", Numbers [Some (120 # 1)%Q; None; Some (118 # 1)%Q])].

Definition station_DE110000_with_data : Station1h :=
  bare_station "DE110000" ["DE1"; "DE110000"]
    (Some ["DE1"; "DE110000"; "DE110000_data.csv"]).

Definition saved_world : World :=
  snd (save_data station_DE110000 (PyDataFrame three_hours) one_station_world).

Definition text_ids : list Entry :=
  [mkEntry "W4711" "DE110000"; mkEntry "P16000708" "DE210000"].

Definition text_ids_world : World :=
  mkWorld (<[nuts_mapping_csv := MappingCsv text_ids]> ∅) [].

(** [f 0 && f 1 && ... && f (k - 1)] *)
Definition all_below (f : Z -> bool) (k : positive) : bool :=
  fst (Pos.iter (fun bi => (fst bi && f (snd bi), snd bi + 1)) (true, 0) k).

(** * Properties *)

(** ** Python strings on examples *)

Example int_digits : PyStr.int "11000" = Some 11000.
Proof. reflexivity. Qed.

Example int_letters : PyStr.int "A1000" = None.
Proof. reflexivity. Qed.

Example int_liberal : PyStr.int " +1_000 " = Some 1000.
Proof. reflexivity. Qed.

Example format_pads : PyStr.format_05d 1010 = "01010".
Proof. reflexivity. Qed.

Example format_wide : PyStr.format_05d 100000 = "100000".
Proof. reflexivity. Qed.

Example format_negative : PyStr.format_05d (-7) = "-0007".
Proof. reflexivity. Qed.

Example last_short : PyStr.last_chars 5 "abc" = "abc".
Proof. reflexivity. Qed.

Example last_long : PyStr.last_chars 5 "DE11000" = "11000".
Proof. reflexivity. Qed.


(** ** Sorting *)

Section SortingFacts.

Context {A : Type} (key : A -> string).

Lemma leb_total_false (a b : string) : String.leb a b = false -> String.leb b a = true.
Proof. intros H. destruct (String.leb_total a b) as [E | E]; congruence. Qed.

Lemma insert_by_perm (x : A) (l : list A) : Permutation (insert_by key x l) (x :: l).
Proof.
  induction l as [| y l IH]; simpl.
  - reflexivity.
  - destruct (String.leb (key x) (key y)).
    + reflexivity.
    + rewrite IH. apply perm_swap.
Qed.

Lemma sort_values_perm (l : list A) : Permutation (sort_values key l) l.
Proof.
  induction l as [| x l IH]; simpl.
  - reflexivity.
  - rewrite insert_by_perm. now constructor.
Qed.

Lemma insert_by_hdrel (a x : A) (l : list A) :
  String.leb (key a) (key x) = true ->
  HdRel (fun u v => String.leb (key u) (key v) = true) a l ->
  HdRel (fun u v => String.leb (key u) (key v) = true) a (insert_by key x l).
Proof.
  intros Hax Hl. destruct l as [| y l]; simpl.
  - now constructor.
  - destruct (String.leb (key x) (key y)); constructor; trivial.
    now inversion Hl.
Qed.

Lemma insert_by_sorted (x : A) (l : list A) :
  sorted_by key l -> sorted_by key (insert_by key x l).
Proof.
  unfold sorted_by. induction 1 as [| y l Hs IH Hd]; simpl.
  - repeat constructor.
  - destruct (String.leb (key x) (key y)) eqn:E.
    + constructor; [now constructor | now constructor].
    + constructor; [exact IH |].
      apply insert_by_hdrel; [now apply leb_total_false | exact Hd].
Qed.

Lemma sort_values_sorted (l : list A) : sorted_by key (sort_values key l).
Proof.
  induction l as [| x l IH]; simpl.
  - constructor.
  - now apply insert_by_sorted.
Qed.

Lemma sorted_byb_spec (l : list A) : sorted_byb key l = true <-> sorted_by key l.
Proof.
  unfold sorted_by. induction l as [| x [| y l] IH].
  - split; [constructor | reflexivity].
  - split; [repeat constructor | reflexivity].
  - change (sorted_byb key (x :: y :: l))
      with (String.leb (key x) (key y) && sorted_byb key (y :: l)).
    rewrite andb_true_iff, IH. split.
    + intros [Hxy Hs]. constructor; [exact Hs | now constructor].
    + intros Hs. inversion Hs as [| ? ? Hs' Hd]; subst.
      inversion Hd; subst. now split.
Qed.

End SortingFacts.

(** ** Membership *)

Lemma in_values_In (x : string) (vs : list string) : in_values x vs = true <-> In x vs.
Proof.
  unfold in_values. rewrite existsb_exists. split.
  - intros [y [Hy E]]. apply String.eqb_eq in E. now subst.
  - intros H. exists x. split; [exact H | apply String.eqb_refl].
Qed.

Lemma in_values_perm (x : string) (l l' : list string) :
  Permutation l l' -> in_values x l = in_values x l'.
Proof.
  intros HP. apply eq_true_iff_eq. rewrite !in_values_In.
  split; intros H; [now rewrite <- HP | now rewrite HP].
Qed.

(** ** Membership in a column that was read from a file *)

Lemma contains_in_values (x : string) (cells : list string) :
  Csv.contains x cells = true -> in_values x cells = true.
Proof.
  unfold Csv.contains. intros H. now apply andb_true_iff in H as [_ H].
Qed.

Lemma not_in_values_not_contains (x : string) (cells : list string) :
  in_values x cells = false -> Csv.contains x cells = false.
Proof.
  intros H. unfold Csv.contains. rewrite H. apply andb_false_r.
Qed.

Lemma text_cell_text_column (x : string) (cells : list string) :
  Csv.is_text x = true -> In x cells -> Csv.typed_column cells = false.
Proof.
  unfold Csv.is_text. intros Hx Hin.
  apply negb_true_iff in Hx.
  apply orb_false_iff in Hx as [Hx Hb]. apply orb_false_iff in Hx as [Hna Hnum].
  unfold Csv.typed_column. destruct cells as [| c cells]; [reflexivity |].
  apply orb_false_iff. split; apply not_true_is_false; intros H;
    rewrite forallb_forall in H; specialize (H x Hin);
    apply orb_true_iff in H as [H | H]; congruence.
Qed.

Lemma text_contains (x : string) (cells : list string) :
  Csv.is_text x = true -> In x cells -> Csv.contains x cells = true.
Proof.
  intros Hx Hin. unfold Csv.contains.
  rewrite (text_cell_text_column x cells Hx Hin).
  rewrite (proj2 (in_values_In x cells) Hin).
  unfold Csv.is_text in Hx. apply negb_true_iff in Hx.
  apply orb_false_iff in Hx as [Hx _]. apply orb_false_iff in Hx as [Hna _].
  now rewrite Hna.
Qed.

Lemma typed_column_not_contains (x : string) (cells : list string) :
  Csv.typed_column cells = true -> Csv.contains x cells = false.
Proof. intros H. unfold Csv.contains. now rewrite H. Qed.

(** ** The two mapping files are different files *)


(** ** What a successful registration leaves behind *)

Lemma update_nuts_mapping_ok (p bl : string) (w w1 : World) (nid : string) :
  update_nuts_mapping p bl w = (Ok nid, w1) ->
  exists mapping,
    files w !! nuts_mapping_csv = Some (MappingCsv mapping) /\
    Csv.contains p (map provider_id mapping) = false /\
    w1 = mkWorld
           (<[nuts_mapping_json :=
                MappingJson (sort_values nuts_id
                               (sort_values nuts_id (mapping ++ [mkEntry p nid])))]>
              (<[nuts_mapping_csv :=
                   MappingCsv (sort_values nuts_id (mapping ++ [mkEntry p nid]))]>
                 (files w)))
           (warned w).
Proof.
  unfold update_nuts_mapping.
  destruct (in_dict bl _INPUT_DEFAULT_PATHS); simpl; [| discriminate].
  unfold bind, read_mapping_csv, read_file, bind.
  destruct (files w !! nuts_mapping_csv) as [[mapping | | | |] |] eqn:Hcsv;
    simpl; try discriminate.
  destruct (Csv.contains p (map provider_id mapping)) eqn:Hin; simpl; [discriminate |].
  destruct (map nuts_id (List.filter _ mapping)) as [| n0 ns];
    [| destruct (PyStr.int _)]; unfold ret, raise, write_file; simpl;
    intros H; try discriminate;
    injection H as <- <-; exists mapping; repeat split; exact Hin.
Qed.

(** C5, as the code has it.  A provider id of digits is registered a
    second time without a conflict: the table that is read back has a
    column of numbers, in which the string is not found.  The second
    call returns a second identifier and the table then has the provider
    id twice. *)
Theorem register_digits_twice :
  register_all ["4711"; "4711"] "DE1" world0 = [Ok "DE11000"; Ok "DE111010"] /\
  files (snd (update_nuts_mapping "4711" "DE1"
                (snd (update_nuts_mapping "4711" "DE1" world0)))) !! nuts_mapping_csv
  = Some (MappingCsv [mkEntry "4711" "DE11000"; mkEntry "4711" "DE111010"]).
Proof. vm_compute. split; reflexivity. Qed.

(** ** Region codes *)

Lemma region_code_length (bl : string) :
  in_dict bl _INPUT_DEFAULT_PATHS = true -> String.length bl = 3%nat.
Proof.
  unfold in_dict. rewrite existsb_exists. intros [kv [Hin E]].
  apply String.eqb_eq in E. subst bl.
  simpl in Hin. intuition (subst; reflexivity).
Qed.

Lemma length_append (a b : string) :
  String.length (a ++ b) = (String.length a + String.length b)%nat.
Proof. induction a as [| c a IH]; simpl; [reflexivity | now rewrite IH]. Qed.

(** C1.  The first registration for a region that has no entry yet
    returns the region code followed by the four characters [1000]: an
    identifier of seven characters, not of eight. *)
Theorem first_registration_seven_chars
    (p bl : string) (w : World) (mapping : list Entry) :
  in_dict bl _INPUT_DEFAULT_PATHS = true ->
  files w !! nuts_mapping_csv = Some (MappingCsv mapping) ->
  List.filter (fun e => PyStr.startswith (nuts_id e) bl) mapping = [] ->
  in_values p (map provider_id mapping) = false ->
  fst (update_nuts_mapping p bl w) = Ok (bl ++ "1000") /\
  String.length (bl ++ "1000") = 7%nat.
Proof.
  intros Hbl Hcsv Hempty Hnew. split.
  - unfold update_nuts_mapping. rewrite Hbl. simpl.
    unfold bind, read_mapping_csv, read_file, bind. rewrite Hcsv. simpl.
    rewrite (not_in_values_not_contains _ _ Hnew), Hempty. reflexivity.
  - rewrite length_append, (region_code_length bl Hbl). reflexivity.
Qed.

Lemma first_registration_seven_chars_witness :
  fst (update_nuts_mapping "4711" "DE1" world0) = Ok "DE11000" /\
  String.length "DE11000" = 7%nat.
Proof.
  apply (first_registration_seven_chars "4711" "DE1" world0 []); reflexivity.
Defined.

(** The registrations that follow read the last five characters of that
    identifier, the last character of the region code with them. *)
Example registrations_DE1 :
  register_all ["4711"; "4712"; "4713"] "DE1" world0
  = [Ok "DE11000"; Ok "DE111010"; Ok "DE111020"].
Proof. vm_compute. reflexivity. Qed.

Example registrations_DEA :
  register_all ["4711"; "4712"] "DEA" world0
  = [Ok "DEA1000";
     Raise (ValueError "invalid literal for int() with base 10: 'A1000'")].
Proof. vm_compute. reflexivity. Qed.

(** The constructor of a station does not accept the identifier of the
    first registration. *)
Example first_id_not_a_station :
  get_output_path (IdStr "DE11000")
  = Raise (ValueError "Given camels_id 'DE11000' not recognized.").
Proof. reflexivity. Qed.

(** With eight characters in the table the next identifier is the one
    expected. *)
Example registration_after_eight_chars :
  fst (update_nuts_mapping "4712" "DE1"
         (mkWorld (<[nuts_mapping_csv := MappingCsv [mkEntry "4711" "DE110000"]]> ∅) []))
  = Ok "DE110010".
Proof. vm_compute. reflexivity. Qed.

(** ** [get_nuts_mapping] *)

(** C10.  When the mapping file is there, a format that is, in lower
    case, none of [json], [csv], [df] and [dataframe] makes
    [get_nuts_mapping] return [None]; no exception is raised and the
    world is as before. *)
Theorem get_nuts_mapping_unknown_format
    (format : string) (w : World) (mapping : list Entry) :
  files w !! nuts_mapping_json = Some (MappingJson mapping) ->
  ~ In (PyStr.lower format) ["json"; "csv"; "df"; "dataframe"] ->
  get_nuts_mapping format w = (Ok PyNone, w).
Proof.
  intros Hfile Hfmt.
  unfold get_nuts_mapping, bind, read_file. rewrite Hfile.
  destruct (String.eqb (PyStr.lower format) "json") eqn:Ejson.
  - apply String.eqb_eq in Ejson. exfalso. apply Hfmt. now left.
  - destruct (in_values (PyStr.lower format) ["csv"; "df"; "dataframe"]) eqn:E.
    + apply in_values_In in E. exfalso. apply Hfmt. now right.
    + reflexivity.
Qed.

Lemma get_nuts_mapping_unknown_format_witness :
  get_nuts_mapping "XML"
    (mkWorld (<[nuts_mapping_json := MappingJson [mkEntry "4711" "DE110000"]]> ∅) [])
  = (Ok PyNone,
     mkWorld (<[nuts_mapping_json := MappingJson [mkEntry "4711" "DE110000"]]> ∅) []).
Proof.
  apply (get_nuts_mapping_unknown_format "XML" _ [mkEntry "4711" "DE110000"]).
  - reflexivity.
  - vm_compute. intuition discriminate.
Defined.

Example get_nuts_mapping_known_formats :
  let w := mkWorld (<[nuts_mapping_json := MappingJson [mkEntry "4711" "DE110000"]]> ∅) [] in
  fst (get_nuts_mapping "Json" w) = Ok (AsJson [mkEntry "4711" "DE110000"]) /\
  fst (get_nuts_mapping "DataFrame" w) = Ok (AsDataFrame [mkEntry "4711" "DE110000"]) /\
  fst (get_nuts_mapping "csv" empty_world)
  = Raise (FileNotFoundError
      "Can't find the nuts_mapping at /metadata/nuts_mapping.json, returning empty mapping.").
Proof. vm_compute. repeat split. Qed.

(** ** [save_data]: the input that is not a data frame *)

(** C8, as the code has it.  An input that is not a data frame makes
    [save_data] raise a [ValueError]; nothing has been checked, written
    or warned about. *)
Theorem save_data_not_a_frame (self : Station1h) (repr : string) (w : World) :
  save_data self (PyOther repr) w
  = (Raise (ValueError "Data must be a pandas dataframe."), w).
Proof. reflexivity. Qed.

(** C8, as the claim has it, fails: the exception is not a [TypeError]. *)
Lemma save_data_not_a_frame_no_TypeError :
  ~ (forall (self : Station1h) (x : string) (w : World),
        exists msg, fst (save_data self (PyOther x) w) = Raise (TypeError msg)).
Proof.
  intros H.
  destruct (H (bare_station "DE110000" ["DE1"; "DE110000"] None) "None" empty_world)
    as [msg Hmsg].
  simpl in Hmsg. discriminate.
Qed.

(** ** [save_data]: the projection on the three columns *)

Lemma has_column_assign_none (c c' : string) (df : DataFrame) :
  Frame.has_column c (Frame.assign_none c' df)
  = Frame.has_column c df || String.eqb c c'.
Proof.
  unfold Frame.has_column, Frame.assign_none. simpl.
  rewrite existsb_app. simpl. now rewrite orb_false_r.
Qed.

Lemma with_value_columns_has (data : DataFrame) :
  Frame.has_column "discharge_vol_obs" (with_value_columns data) = true /\
  Frame.has_column "water_level_obs" (with_value_columns data) = true /\
  Frame.has_column "date" (with_value_columns data) = Frame.has_column "date" data.
Proof.
  unfold with_value_columns.
  destruct (Frame.has_column "discharge_vol_obs" data) eqn:Hq; simpl;
    [destruct (Frame.has_column "water_level_obs" data) eqn:Hw
    | destruct (Frame.has_column "water_level_obs"
                  (Frame.assign_none "discharge_vol_obs" data)) eqn:Hw];
    simpl; rewrite ?has_column_assign_none, ?Hq, ?Hw; simpl;
    rewrite ?orb_false_r, ?orb_true_r; auto.
  rewrite has_column_assign_none in Hw. simpl in Hw.
  rewrite orb_false_r in Hw. now rewrite Hw.
Qed.

Lemma save_data_unfold (self : Station1h) (data : DataFrame) :
  save_data self (PyDataFrame data)
  = (let* data := lift (Frame.project ["date"; "discharge_vol_obs"; "water_level_obs"]
                          (with_value_columns data)) in
     let* data := (if Frame.has_column "date" data
                   then lift (Frame.set_index "date" data) else ret data) in
     if Frame.duplicated_any (index data)
     then raise (ValueError (self_gauge_id self ++ ": Data contains duplicated dates."))
     else if negb (Frame.is_monotonic_increasing (index data))
     then raise (ValueError (self_gauge_id self ++ ": Data is not sorted by date."))
     else if negb (Frame.all_steps_one_hour (index data))
     then raise (ValueError (self_gauge_id self
                             ++ ": Not all dates are in hourly resolution."))
     else
       let* tz := lift (Frame.tz_str (index data)) in
       if negb (String.eqb tz "UTC")
       then raise (ValueError (self_gauge_id self
              ++ ": Data is not in UTC+0 or it misses the timezone information."))
       else
         let additional_columns :=
           Frame.columns_difference data ["discharge_vol_obs"; "water_level_obs"] in
         do (if (0 <? length additional_columns)%nat
             then warn (self_gauge_id self ++ ": Additional columns found: Index(['"
                        ++ String.concat "', '" additional_columns
                        ++ "'], dtype='object')")
             else ret tt) then
         do mkdir (self_output_path self) then
         write_file (data_file self) (DataCsv "date" data)).
Proof. reflexivity. Qed.

(** C9.  A data frame without a column [date] makes [save_data] raise the
    [KeyError] of the projection, wherever its dates are: no check of the
    index has run and the world is as before. *)
Theorem save_data_without_date_column
    (self : Station1h) (data : DataFrame) (w : World) :
  Frame.has_column "date" data = false ->
  save_data self (PyDataFrame data) w
  = (Raise (KeyError "['date'] not in index"), w).
Proof.
  intros Hdate. rewrite save_data_unfold.
  destruct (with_value_columns_has data) as (Hq & Hw & Hd).
  rewrite Hdate in Hd.
  unfold bind, lift, Frame.project. simpl.
  rewrite Hq, Hw, Hd. reflexivity.
Qed.

Lemma save_data_without_date_column_witness :
  save_data (bare_station "DE110000" ["DE1"; "DE110000"] None)
    (PyDataFrame
       (mkDataFrame
          (DatetimeIndex (Some "UTC") [0; Frame.one_hour; 2 * Frame.one_hour])
          [("discharge_vol_obs", Numbers [Some (1 # 2)%Q; None; Some (3 # 1)%Q])]))
    empty_world
  = (Raise (KeyError "['date'] not in index"), empty_world).
Proof.
  apply save_data_without_date_column. reflexivity.
Defined.

(** ** [save_data]: the warning about additional columns *)

Lemma existsb_find {A} (f : A -> bool) (l : list A) :
  existsb f l = match find f l with Some _ => true | None => false end.
Proof.
  induction l as [| x l IH]; simpl; [reflexivity |].
  destruct (f x); [reflexivity | exact IH].
Qed.

Lemma project_three_ok (df df' : DataFrame) :
  Frame.project ["date"; "discharge_vol_obs"; "water_level_obs"] df = Ok df' ->
  exists d q l,
    columns df' = [("date", d); ("discharge_vol_obs", q); ("water_level_obs", l)].
Proof.
  unfold Frame.project. simpl.
  unfold Frame.has_column, Frame.get_column. rewrite !existsb_find.
  destruct (find (fun kv => String.eqb "date" (fst kv)) (columns df)) as [[? d] |];
    destruct (find (fun kv => String.eqb "discharge_vol_obs" (fst kv)) (columns df))
      as [[? q] |];
    destruct (find (fun kv => String.eqb "water_level_obs" (fst kv)) (columns df))
      as [[? l] |];
    simpl; try discriminate.
  intros H. injection H as <-. simpl. eauto.
Qed.

(** C7, as the code has it.  [save_data] never warns: the projection has
    dropped every additional column before they are looked for. *)
Theorem save_data_never_warns (self : Station1h) (data : pyobject) (w : World) :
  warned (snd (save_data self data w)) = warned w.
Proof.
  destruct data as [data | repr]; [| reflexivity].
  rewrite save_data_unfold. unfold bind at 1. unfold lift at 1.
  destruct (Frame.project _ (with_value_columns data)) as [df' | e] eqn:Hp;
    [| reflexivity].
  destruct (project_three_ok _ _ Hp) as (d & q & l & Hcols).
  unfold bind, lift, Frame.has_column, Frame.set_index, Frame.get_column.
  rewrite Hcols. simpl.
  destruct (Frame.duplicated_any _); [reflexivity |].
  destruct (Frame.is_monotonic_increasing _); [| reflexivity].
  destruct (Frame.all_steps_one_hour _); [| reflexivity].
  simpl. destruct (Frame.tz_str _) as [tz | e]; [| reflexivity].
  destruct (String.eqb tz "UTC"); reflexivity.
Qed.

Example save_data_drops_additional_column :
  let self := bare_station "DE110000" ["DE1"; "DE110000"] None in
  let data :=
    mkDataFrame (RangeIndex 3)
      [("date", Datetimes (Some "UTC") [0; Frame.one_hour; 2 * Frame.one_hour]);
       ("discharge_vol_obs", Numbers [Some (1 # 2)%Q; None; Some (3 # 1)%Q]);
       ("quality_flag", Numbers [Some (1 # 1)%Q; Some (1 # 1)%Q; Some (1 # 1)%Q])] in
  let (r, w) := save_data self (PyDataFrame data) empty_world in
  r = Ok tt /\
  warned w = [] /\
  files w !! data_file self
  = Some (DataCsv "date"
            (mkDataFrame
               (DatetimeIndex (Some "UTC") [0; Frame.one_hour; 2 * Frame.one_hour])
               [("discharge_vol_obs", Numbers [Some (1 # 2)%Q; None; Some (3 # 1)%Q]);
                ("water_level_obs", Numbers [None; None; None])])).
Proof. vm_compute. repeat split. Qed.

(** ** The dispatch of the constructor *)

Lemma filter_none {A} (f : A -> bool) (l : list A) :
  (forall x, In x l -> f x = false) -> List.filter f l = [].
Proof.
  induction l as [| x l IH]; simpl; [reflexivity |].
  intros H. rewrite (H x) by now left. apply IH. intros y Hy. apply H. now right.
Qed.

Lemma filter_unique_key {A} (f : A -> string) (l : list A) (e : A) :
  List.NoDup (map f l) -> In e l ->
  List.filter (fun x => String.eqb (f x) (f e)) l = [e].
Proof.
  induction l as [| x l IH]; simpl; [contradiction |].
  intros Hnd Hin. inversion Hnd as [| ? ? Hx Hnd']; subst.
  destruct Hin as [-> | Hin].
  - rewrite String.eqb_refl. f_equal.
    rewrite filter_none; [reflexivity |]. intros y Hy.
    destruct (String.eqb (f y) (f e)) eqn:E; [| reflexivity].
    apply String.eqb_eq in E. exfalso. apply Hx. rewrite <- E. now apply in_map.
  - destruct (String.eqb (f x) (f e)) eqn:E.
    + apply String.eqb_eq in E. exfalso. apply Hx. rewrite E. now apply in_map.
    + now apply IH.
Qed.

(** C4, as the code has it.  The identifier is looked up among the
    provider ids first: when it is the provider id of an entry (provider
    ids being unique) the result is the [nuts_id] of that entry, also when
    the identifier is a [nuts_id] of the table as well; when it is no
    provider id but a [nuts_id] of the table it is returned as it is; when
    it is neither, in a table that is not empty, a [ValueError] is
    raised. *)
Theorem resolve_dispatch (mapping : list Entry) (g : string) :
  (forall e, List.NoDup (map provider_id mapping) -> In e mapping -> provider_id e = g ->
             resolve mapping g = Ok (IdStr (nuts_id e))) /\
  (~ In g (map provider_id mapping) -> In g (map nuts_id mapping) ->
   resolve mapping g = Ok (IdStr g)) /\
  (mapping <> [] -> ~ In g (map provider_id mapping) -> ~ In g (map nuts_id mapping) ->
   exists msg, resolve mapping g = Raise (ValueError msg)).
Proof.
  split; [| split].
  - intros e Hnd Hin <-.
    unfold resolve. destruct mapping as [| e0 mapping']; [contradiction |].
    set (m := e0 :: mapping') in *.
    rewrite (proj2 (in_values_In (provider_id e) (map provider_id m)))
      by now apply in_map.
    unfold loc_nuts_id. now rewrite (filter_unique_key provider_id m e Hnd Hin).
  - intros Hp Hn. unfold resolve.
    destruct mapping as [| e0 mapping']; [contradiction |].
    set (m := e0 :: mapping') in *.
    destruct (in_values g (map provider_id m)) eqn:E.
    + apply in_values_In in E. contradiction.
    + now rewrite (proj2 (in_values_In g (map nuts_id m))).
  - intros Hne Hp Hn. unfold resolve.
    destruct mapping as [| e0 mapping']; [contradiction |].
    set (m := e0 :: mapping') in *.
    destruct (in_values g (map provider_id m)) eqn:E.
    + apply in_values_In in E. contradiction.
    + destruct (in_values g (map nuts_id m)) eqn:E'.
      * apply in_values_In in E'. contradiction.
      * eauto.
Qed.

Lemma resolve_dispatch_witness :
  resolve crossed_mapping "DE110000" = Ok (IdStr "DE210000") /\
  resolve crossed_mapping "DE210000" = Ok (IdStr "DE210000") /\
  exists msg, resolve crossed_mapping "DE999999" = Raise (ValueError msg).
Proof.
  destruct (resolve_dispatch crossed_mapping "DE110000") as (Ha & _ & _).
  destruct (resolve_dispatch crossed_mapping "DE210000") as (_ & Hb & _).
  destruct (resolve_dispatch crossed_mapping "DE999999") as (_ & _ & Hc).
  split; [| split].
  - apply (Ha (mkEntry "DE110000" "DE210000")).
    + repeat constructor; simpl; intuition discriminate.
    + simpl. now right; left.
    + reflexivity.
  - apply Hb.
    + simpl. intuition discriminate.
    + simpl. now right; left.
  - apply Hc.
    + discriminate.
    + simpl. intuition discriminate.
    + simpl. intuition discriminate.
Defined.

(** C4, as the claim has it, fails: an identifier that is the [nuts_id]
    of one entry and the provider id of another is not returned as it
    is. *)
Lemma resolve_not_nuts_id_first :
  In "DE110000" (map nuts_id crossed_mapping) /\
  resolve crossed_mapping "DE110000" <> Ok (IdStr "DE110000").
Proof.
  split.
  - simpl. now left.
  - vm_compute. discriminate.
Qed.

(** ** The cached data path *)

Lemma bind_ok {A B} (m : M A) (k : A -> M B) (w w' : World) (b : B) :
  bind m k w = (Ok b, w') ->
  exists a w1, m w = (Ok a, w1) /\ k a w1 = (Ok b, w').
Proof.
  unfold bind. destruct (m w) as [[a | e] w1]; [eauto | discriminate].
Qed.

Lemma lift_ok {A} (r : result A) (w w' : World) (a : A) :
  lift r w = (Ok a, w') -> r = Ok a /\ w' = w.
Proof. unfold lift. intros H. injection H as -> <-. now split. Qed.

Lemma exists_ok (p : Path) (w w' : World) (b : bool) :
  exists_ p w = (Ok b, w') -> b = bool_decide (is_Some (files w !! p)) /\ w' = w.
Proof. unfold exists_. intros H. injection H as <- <-. now split. Qed.

Lemma get_nuts_mapping_pure (format : string) (w w' : World) (r : result mapping_value) :
  get_nuts_mapping format w = (r, w') -> w' = w.
Proof.
  unfold get_nuts_mapping, bind, read_file.
  destruct (files w !! nuts_mapping_json) as [[] |]; unfold raise, ret;
    repeat match goal with |- context [if ?c then _ else _] => destruct c end;
    intros H; now injection H.
Qed.

Lemma get_metadata_pure (self : Station1h) (w w' : World) (r : result (list MetaRow)) :
  get_metadata self w = (r, w') -> w' = w.
Proof.
  unfold get_metadata, bind, has_metadata, exists_, read_file.
  destruct (bool_decide _); simpl; unfold raise, ret.
  - destruct (files w !! meta_file self) as [[] |]; intros H; now injection H.
  - intros H; now injection H.
Qed.

Lemma Station1h_init_ok (g : string) (w w' : World) (self : Station1h) :
  Station1h_init g w = (Ok self, w') ->
  w' = w /\
  self_data_path self
  = if bool_decide (is_Some (files w !! data_file self))
    then Some (data_file self) else None.
Proof.
  unfold Station1h_init. intros H.
  apply bind_ok in H as (m & w1 & Hm & H).
  apply get_nuts_mapping_pure in Hm as ->.
  destruct m as [| mapping |]; try discriminate.
  apply bind_ok in H as (gid & w1 & Hgid & H). apply lift_ok in Hgid as [Hgid ->].
  apply bind_ok in H as (out & w1 & Hout & H). apply lift_ok in Hout as [Hout ->].
  destruct gid as [| s | vs]; try discriminate.
  apply bind_ok in H as (ex & w1 & Hex & H). apply exists_ok in Hex as [-> ->].
  apply bind_ok in H as (hm & w1 & Hhm & H). apply exists_ok in Hhm as [_ ->].
  destruct hm.
  - apply bind_ok in H as (meta & w1 & Hmeta & H).
    apply get_metadata_pure in Hmeta as ->.
    destruct meta as [| r rows]; [discriminate |].
    injection H as <- <-. split; reflexivity.
  - injection H as <- <-. split; reflexivity.
Qed.

Lemma save_data_ok (self : Station1h) (data : pyobject) (w w2 : World) :
  save_data self data w = (Ok tt, w2) ->
  exists d, files w2 = <[data_file self := DataCsv "date" d]> (files w).
Proof.
  destruct data as [data | repr]; [| discriminate].
  rewrite save_data_unfold. unfold bind at 1. unfold lift at 1.
  destruct (Frame.project _ (with_value_columns data)) as [df' | e] eqn:Hp;
    [| discriminate].
  destruct (project_three_ok _ _ Hp) as (d & q & l & Hcols).
  unfold bind, lift, Frame.has_column, Frame.set_index, Frame.get_column.
  rewrite Hcols. simpl.
  destruct (Frame.duplicated_any _); [discriminate |].
  destruct (Frame.is_monotonic_increasing _); [| discriminate].
  destruct (Frame.all_steps_one_hour _); [| discriminate].
  simpl. destruct (Frame.tz_str _) as [tz | e]; [| discriminate].
  destruct (String.eqb tz "UTC"); [| discriminate].
  simpl. intros H. injection H as <-. eauto.
Qed.

(** C3, as the code has it.  A station object built while its data file
    did not exist keeps [data_path = None]: after a successful
    [save_data] on that object, whenever it is called, the file is there,
    and [get_data] on the same object still raises [FileNotFoundError]. *)
Theorem get_data_after_save_data
    (g : string) (w w' w1 w2 : World) (self : Station1h)
    (data : pyobject) (date_index : bool) :
  Station1h_init g w = (Ok self, w') ->
  files w !! data_file self = None ->
  save_data self data w1 = (Ok tt, w2) ->
  is_Some (files w2 !! data_file self) /\
  get_data self date_index w2
  = (Raise (FileNotFoundError ("No data found for station " ++ self_gauge_id self)), w2).
Proof.
  intros Hinit Hnone Hsave.
  apply Station1h_init_ok in Hinit as [_ Hpath].
  rewrite Hnone in Hpath.
  rewrite bool_decide_eq_false_2 in Hpath by (intros [? ?]; discriminate).
  apply save_data_ok in Hsave as [d Hfiles]. split.
  - rewrite Hfiles, lookup_insert_eq. eauto.
  - unfold get_data. rewrite Hpath. reflexivity.
Qed.

Lemma get_data_after_save_data_witness :
  is_Some (files (snd (save_data station_DE110000 (PyDataFrame three_hours)
                         one_station_world))
           !! data_file station_DE110000) /\
  get_data station_DE110000 false
    (snd (save_data station_DE110000 (PyDataFrame three_hours) one_station_world))
  = (Raise (FileNotFoundError "No data found for station DE110000"),
     snd (save_data station_DE110000 (PyDataFrame three_hours) one_station_world)).
Proof.
  apply (get_data_after_save_data "4711" one_station_world one_station_world
           one_station_world
           (snd (save_data station_DE110000 (PyDataFrame three_hours) one_station_world))
           station_DE110000 (PyDataFrame three_hours) false).
  - vm_compute. reflexivity.
  - vm_compute. reflexivity.
  - vm_compute. reflexivity.
Defined.

(** A new object for the same station finds the file. *)
Example get_data_new_object :
  let w2 := snd (save_data station_DE110000 (PyDataFrame three_hours) one_station_world) in
  match Station1h_init "DE110000" w2 with
  | (Ok self', w3) =>
      self_data_path self' = Some ["DE1"; "DE110000"; "DE110000_data.csv"] /\
      exists d, fst (get_data self' false w3) = Ok d
  | _ => False
  end.
Proof. vm_compute. split; [reflexivity | eauto]. Qed.

(** ** The global metadata table *)

Lemma meta_file_not_table (self : Station1h) : meta_file self <> metadata1h_csv.
Proof.
  unfold meta_file, metadata1h_csv, joinpath, OUTPUT_PATH. simpl.
  change ["metadata"; "metadata1h.csv"] with (["metadata"] ++ ["metadata1h.csv"])%list.
  intros E. apply app_inj_tail in E as [_ E].
  assert (Hlen : String.length (self_gauge_id self ++ "_metadata.csv") = 14%nat)
    by now rewrite E.
  rewrite length_append in Hlen. simpl in Hlen.
  destruct (self_gauge_id self) as [| c [| c' s]]; simpl in Hlen; try lia.
  simpl in E. discriminate.
Qed.

Lemma save_metadata_run (self : Station1h) (row : MetaRow) (w : World) :
  save_metadata self row w
  = let fs := <[meta_file self := MetadataCsv [row]]> (files w) in
    match files w !! metadata1h_csv with
    | None => (Ok tt, mkWorld (<[metadata1h_csv := MetadataCsv [row]]> fs) (warned w))
    | Some (MetadataCsv meta) =>
        (Ok tt, mkWorld (<[metadata1h_csv := MetadataCsv (upserted row meta)]> fs)
                  (warned w))
    | Some _ =>
        (Raise (AttributeError "'DataFrame' object has no attribute 'gauge_id'"),
         mkWorld fs (warned w))
    end.
Proof.
  unfold save_metadata, bind, mkdir, ret, write_file, lift, exists_, read_file, upserted.
  simpl.
  change (OUTPUT_PATH // "metadata" // "metadata1h.csv") with metadata1h_csv.
  rewrite lookup_insert_ne by apply meta_file_not_table.
  destruct (files w !! metadata1h_csv) as [f |] eqn:Hf.
  - rewrite bool_decide_eq_true_2 by eauto. simpl.
    rewrite lookup_insert_ne by apply meta_file_not_table. rewrite Hf.
    destruct f as [| | meta | |]; try reflexivity.
    destruct (Csv.contains (gauge_id row) (map gauge_id meta)); reflexivity.
  - rewrite bool_decide_eq_false_2 by (intros [? ?]; discriminate). reflexivity.
Qed.

Lemma filter_perm {A} (f : A -> bool) (l l' : list A) :
  Permutation l l' -> Permutation (List.filter f l) (List.filter f l').
Proof.
  induction 1 as [| x l l' HP IH | x y l | l l' l'' _ IH1 _ IH2]; simpl.
  - reflexivity.
  - destruct (f x); [now constructor | exact IH].
  - destruct (f x), (f y); try reflexivity. apply perm_swap.
  - now transitivity (List.filter f l').
Qed.

Lemma filter_perm_singleton {A} (f : A -> bool) (l l' : list A) (x : A) :
  Permutation l l' -> List.filter f l' = [x] -> List.filter f l = [x].
Proof.
  intros HP Hf. pose proof (filter_perm f l l' HP) as H.
  rewrite Hf in H. symmetry in H. now apply Permutation_length_1_inv in H.
Qed.


Lemma filter_all {A} (f : A -> bool) (l : list A) :
  (forall x, In x l -> f x = true) -> List.filter f l = l.
Proof.
  induction l as [| x l IH]; simpl; [reflexivity |].
  intros H. rewrite (H x) by now left. f_equal. apply IH. intros y Hy. apply H. now right.
Qed.

(** *** The table after [sort_values] *)


Lemma text_not_na (x : string) : Csv.is_text x = true -> Csv.is_na x = false.
Proof.
  unfold Csv.is_text. intros H. apply negb_true_iff in H.
  apply orb_false_iff in H as [H _]. now apply orb_false_iff in H as [H _].
Qed.


(** Without missing gauge ids this is the plain order. *)
Lemma sorted_by_gauge_id_no_missing (rows : list MetaRow) :
  (forall r, In r rows -> Csv.is_na (gauge_id r) = false) ->
  sorted_by_gauge_id rows -> sorted_by gauge_id rows.
Proof.
  intros Hna (present & missing & -> & Hs & _ & Hm).
  destruct missing as [| r missing]; [now rewrite app_nil_r |].
  inversion Hm as [| ? ? Hr _]; subst.
  assert (H : Csv.is_na (gauge_id r) = false)
    by (apply Hna; rewrite in_app_iff; right; now left).
  rewrite Hr in H. discriminate H.
Qed.


Lemma sort_by_gauge_id_no_na (rows : list MetaRow) :
  (forall r, In r rows -> Csv.is_na (gauge_id r) = false) ->
  sort_by_gauge_id rows = sort_values gauge_id rows.
Proof.
  intros H. unfold sort_by_gauge_id.
  rewrite filter_all by (intros r Hr; now rewrite (H r Hr)).
  rewrite filter_none by (intros r Hr; exact (H r Hr)).
  simpl. apply app_nil_r.
Qed.





Lemma startswith_inv (s p : string) :
  PyStr.startswith s p = true -> exists t, s = (p ++ t)%string.
Proof.
  revert s. induction p as [| c p IH]; intros s H.
  - exists s. reflexivity.
  - destruct s as [| d s]; [discriminate H |]. simpl in H.
    destruct (Ascii.eqb_spec c d) as [<- |]; [| discriminate H].
    destruct (IH s H) as [t ->]. exists t. reflexivity.
Qed.

(** Identifiers that start with a region code are read back as text. *)
Lemma region_prefix_text (g : string) :
  has_region_prefix g = true -> Csv.is_text g = true.
Proof.
  unfold has_region_prefix. rewrite existsb_exists. intros [kv [Hin Hpre]].
  apply startswith_inv in Hpre as [t ->].
  simpl in Hin.
  repeat (destruct Hin as [<- | Hin]; [reflexivity |]).
  contradiction.
Qed.

Lemma sorted_last_two {A} (R : A -> A -> Prop) (l : list A) (a b : A) :
  Sorted R (l ++ [a; b]) -> R a b.
Proof.
  induction l as [| x l IH]; simpl; intros H.
  - inversion H as [| ? ? _ Hd]; subst. now inversion Hd.
  - inversion H; subst. now apply IH.
Qed.

Lemma ltb_not_leb (a b : string) : String.ltb a b = true -> String.leb b a = false.
Proof.
  unfold String.ltb, String.leb. rewrite (String.compare_antisym a b).
  destruct (String.compare b a); simpl; congruence.
Qed.

(** C2, as the code has it.  When the table exists and does not have the
    gauge id, the row is appended and the table is not sorted again: if
    the last row of the table has a greater gauge id, the table that
    [save_metadata] leaves is not sorted. *)
Theorem save_metadata_append_unsorted
    (self : Station1h) (row last : MetaRow) (meta : list MetaRow) (w : World) :
  files w !! metadata1h_csv = Some (MetadataCsv (meta ++ [last])) ->
  in_values (gauge_id row) (map gauge_id (meta ++ [last])) = false ->
  String.ltb (gauge_id row) (gauge_id last) = true ->
  exists w',
    save_metadata self row w = (Ok tt, w') /\
    files w' !! metadata1h_csv = Some (MetadataCsv (meta ++ [last; row])) /\
    ~ sorted_by gauge_id (meta ++ [last; row]).
Proof.
  intros Hfile Hnew Hlt.
  rewrite save_metadata_run. cbv zeta. rewrite Hfile.
  eexists. split; [reflexivity |]. simpl. rewrite lookup_insert_eq.
  unfold upserted. rewrite (not_in_values_not_contains _ _ Hnew), <- app_assoc.
  split; [reflexivity |].
  intros Hs. apply sorted_last_two in Hs.
  apply ltb_not_leb in Hlt. congruence.
Qed.

Lemma save_metadata_append_unsorted_witness :
  exists w',
    save_metadata station_DE110000 (row_DE110000 "Plochingen")
      (table_world [row_DE210000])
    = (Ok tt, w') /\
    files w' !! metadata1h_csv
    = Some (MetadataCsv [row_DE210000; row_DE110000 "Plochingen"]) /\
    ~ sorted_by gauge_id [row_DE210000; row_DE110000 "Plochingen"].
Proof.
  apply (save_metadata_append_unsorted station_DE110000 (row_DE110000 "Plochingen")
           row_DE210000 [] (table_world [row_DE210000])).
  - vm_compute. reflexivity.
  - vm_compute. reflexivity.
  - vm_compute. reflexivity.
Defined.

(** The other half of C2 holds for gauge ids that are read back as text:
    a table with one row for each gauge id has one row for each gauge id
    after [save_metadata]. *)
Lemma upserted_unique_keys (row : MetaRow) (meta : list MetaRow) :
  Csv.is_text (gauge_id row) = true ->
  (forall r, In r meta -> Csv.is_na (gauge_id r) = false) ->
  List.NoDup (map gauge_id meta) -> List.NoDup (map gauge_id (upserted row meta)).
Proof.
  intros Htext Hna Hnd. unfold upserted.
  destruct (Csv.contains (gauge_id row) (map gauge_id meta)) eqn:Hin.
  - rewrite sort_by_gauge_id_no_na.
    2:{ intros r Hr. apply in_app_iff in Hr as [Hr | [<- | []]].
        - apply filter_In in Hr as [Hr _]. now apply Hna.
        - now apply text_not_na. }
    eapply Permutation_NoDup.
    + symmetry. apply Permutation_map, sort_values_perm.
    + rewrite map_app. simpl.
      eapply Permutation_NoDup; [apply Permutation_cons_append |].
      constructor.
      * rewrite in_map_iff. intros (r & Hr & Hf).
        apply filter_In in Hf as [_ Hf]. apply negb_true_iff in Hf.
        apply String.eqb_neq in Hf. congruence.
      * clear Hin Hna. induction meta as [| r meta IH]; simpl; [constructor |].
        inversion Hnd as [| ? ? Hr Hnd']; subst.
        destruct (negb _); simpl; [| now apply IH].
        constructor; [| now apply IH].
        rewrite in_map_iff. intros (r' & Hr' & Hf).
        apply filter_In in Hf as [Hf _]. apply Hr. rewrite <- Hr'. now apply in_map.
  - rewrite map_app. simpl.
    eapply Permutation_NoDup; [apply Permutation_cons_append |].
    constructor; [| exact Hnd].
    intros H. rewrite (text_contains _ _ Htext H) in Hin. discriminate.
Qed.

(** * More of the code *)

(** ** Registration: failure and the rest of the tree *)

Lemma update_nuts_mapping_raise (p bl : string) (w w' : World) (e : exn) :
  update_nuts_mapping p bl w = (Raise e, w') -> w' = w.
Proof.
  unfold update_nuts_mapping.
  destruct (in_dict bl _INPUT_DEFAULT_PATHS); simpl;
    [| unfold raise; intros H; now injection H].
  unfold bind, read_mapping_csv, read_file, bind.
  destruct (files w !! nuts_mapping_csv) as [[mapping | | | |] |];
    simpl; unfold raise; try (intros H; now injection H).
  destruct (Csv.contains p (map provider_id mapping)); simpl;
    [intros H; now injection H |].
  destruct (map nuts_id (List.filter _ mapping)) as [| n0 ns];
    [| destruct (PyStr.int _)]; unfold ret, raise, write_file; simpl;
    intros H; try discriminate; now injection H.
Qed.

(** X1.  Whenever [update_nuts_mapping] raises, for an unknown region
    code, a missing table, a provider id that is found in the table or a
    last identifier that does not end in a number, it has written
    nothing: both mapping files and every other file are as they were. *)
Theorem update_nuts_mapping_failure_writes_nothing
    (p bl : string) (w w' : World) (e : exn) :
  update_nuts_mapping p bl w = (Raise e, w') ->
  w' = w /\
  files w' !! nuts_mapping_csv = files w !! nuts_mapping_csv /\
  files w' !! nuts_mapping_json = files w !! nuts_mapping_json.
Proof.
  intros H. apply update_nuts_mapping_raise in H. subst. repeat split.
Qed.

Lemma update_nuts_mapping_failure_writes_nothing_witness :
  snd (update_nuts_mapping "4711" "DEA" (snd (update_nuts_mapping "4710" "DEA" world0)))
  = snd (update_nuts_mapping "4710" "DEA" world0) /\
  files (snd (update_nuts_mapping "4711" "DEA"
                (snd (update_nuts_mapping "4710" "DEA" world0)))) !! nuts_mapping_csv
  = files (snd (update_nuts_mapping "4710" "DEA" world0)) !! nuts_mapping_csv /\
  files (snd (update_nuts_mapping "4711" "DEA"
                (snd (update_nuts_mapping "4710" "DEA" world0)))) !! nuts_mapping_json
  = files (snd (update_nuts_mapping "4710" "DEA" world0)) !! nuts_mapping_json.
Proof.
  apply (update_nuts_mapping_failure_writes_nothing "4711" "DEA" _ _
           (ValueError "invalid literal for int() with base 10: 'A1000'")).
  vm_compute. reflexivity.
Defined.

(** X2.  A registration, successful or not, touches no file but the two
    mapping files, and it warns about nothing. *)
Theorem update_nuts_mapping_frame
    (p bl : string) (w w' : World) (r : result string) (path : Path) :
  update_nuts_mapping p bl w = (r, w') ->
  path <> nuts_mapping_csv -> path <> nuts_mapping_json ->
  files w' !! path = files w !! path /\ warned w' = warned w.
Proof.
  intros H Hcsv Hjson. destruct r as [nid | e].
  - apply update_nuts_mapping_ok in H as (mapping & _ & _ & ->). simpl.
    rewrite !lookup_insert_ne by congruence. now split.
  - apply update_nuts_mapping_raise in H. now subst.
Qed.

Lemma update_nuts_mapping_frame_witness :
  files (snd (update_nuts_mapping "4711" "DE1" mapping_and_table_world)) !! metadata1h_csv
  = files mapping_and_table_world !! metadata1h_csv /\
  warned (snd (update_nuts_mapping "4711" "DE1" mapping_and_table_world))
  = warned mapping_and_table_world.
Proof.
  apply (update_nuts_mapping_frame "4711" "DE1" mapping_and_table_world
           _ (Ok "DE11000") metadata1h_csv).
  - vm_compute. reflexivity.
  - discriminate.
  - discriminate.
Defined.

(** ** Registration: what the mapping keeps *)






(** ** Registration: the next identifier *)

Lemma all_below_spec (f : Z -> bool) (k : positive) :
  all_below f k = true -> forall n, 0 <= n < Z.pos k -> f n = true.
Proof.
  unfold all_below.
  set (step := fun bi : bool * Z => (fst bi && f (snd bi), snd bi + 1)).
  assert (H : snd (Pos.iter step (true, 0) k) = Z.pos k /\
              (fst (Pos.iter step (true, 0) k) = true ->
               forall n, 0 <= n < Z.pos k -> f n = true)).
  { induction k as [| k [IHs IHf]] using Pos.peano_ind.
    - simpl. split; [reflexivity |]. intros Hf n Hn.
      replace n with 0 by lia. exact Hf.
    - rewrite Pos.iter_succ. unfold step at 1. unfold step at 2. simpl.
      rewrite IHs. split; [lia |]. intros Hf n Hn.
      apply andb_true_iff in Hf as [Hb Hk].
      destruct (Z.eq_dec n (Z.pos k)) as [-> | Hne]; [exact Hk |].
      apply IHf; [exact Hb | lia]. }
  intros Hall. now apply H.
Qed.

Lemma five_digits_all : all_below five_digits_ok 100000 = true.
Proof. vm_cast_no_check (eq_refl true). Qed.

Lemma five_digits (n : Z) :
  0 <= n < 100000 ->
  String.length (PyStr.format_05d n) = 5%nat /\
  PyStr.int (PyStr.format_05d n) = Some n /\
  (n + 10 < 100000 ->
   String.ltb (PyStr.format_05d n) (PyStr.format_05d (n + 10)) = true).
Proof.
  intros Hn.
  pose proof (all_below_spec _ _ five_digits_all n Hn) as H.
  unfold five_digits_ok in H.
  apply andb_true_iff in H as [H Hlt]. apply andb_true_iff in H as [Hlen Hint].
  apply Nat.eqb_eq in Hlen.
  destruct (PyStr.int (PyStr.format_05d n)) as [m |]; [| discriminate].
  apply Z.eqb_eq in Hint. subst m. repeat split; trivial.
  intros Hn'. apply orb_true_iff in Hlt as [Hlt | Hlt]; [| exact Hlt].
  apply Z.leb_le in Hlt. lia.
Qed.

Lemma substring_all (s : string) : String.substring 0 (String.length s) s = s.
Proof. induction s as [| c s IH]; simpl; [reflexivity | now rewrite IH]. Qed.

Lemma substring_skip (a b : string) :
  String.substring (String.length a) (String.length b) (a ++ b) = b.
Proof. induction a as [| c a IH]; simpl; [apply substring_all | exact IH]. Qed.

Lemma last_chars_append (a b : string) :
  PyStr.last_chars (String.length b) (a ++ b) = b.
Proof.
  unfold PyStr.last_chars. rewrite length_append.
  replace (String.length a + String.length b - String.length b)%nat
    with (String.length a) by lia.
  apply substring_skip.
Qed.

Lemma max_greatest (g n0 : string) (ns : list string) :
  greatest g (n0 :: ns) -> PyStr.max n0 ns = g.
Proof.
  unfold greatest, PyStr.max. intros [Hin Hle].
  assert (Hacc : String.leb n0 g = true) by (apply Hle; now left).
  assert (Hrest : forall x, In x ns -> String.leb x g = true)
    by (intros x Hx; apply Hle; now right).
  assert (Hg : n0 = g \/ In g ns) by (destruct Hin; auto).
  clear Hin Hle. revert n0 Hacc Hg.
  induction ns as [| s ns IH]; simpl; intros acc Hacc Hg.
  - destruct Hg as [Hg | []]. exact Hg.
  - apply IH.
    + intros x Hx. apply Hrest. now right.
    + destruct (String.ltb acc s); [apply Hrest; now left | exact Hacc].
    + destruct Hg as [-> | [-> | Hg]].
      * destruct (String.ltb g s) eqn:E; [| now left].
        apply ltb_not_leb in E. rewrite Hrest in E by now left. discriminate.
      * left. unfold String.ltb, String.leb in *.
        destruct (String.compare acc g) eqn:E; try discriminate; [| reflexivity].
        now apply String.compare_eq_iff in E.
      * now right.
Qed.

(** X4.  When every identifier of the table starts with a region code
    and the greatest identifier of the region is the region code
    followed by the five digits of [n], a new provider id is given the
    region code followed by the five digits of [n + 10]: eight
    characters. *)
Theorem update_nuts_mapping_next
    (p bl : string) (w : World) (mapping : list Entry) (n : Z) :
  in_dict bl _INPUT_DEFAULT_PATHS = true ->
  files w !! nuts_mapping_csv = Some (MappingCsv mapping) ->
  forallb has_region_prefix (map nuts_id mapping) = true ->
  in_values p (map provider_id mapping) = false ->
  greatest (bl ++ PyStr.format_05d n) (region_ids bl mapping) ->
  0 <= n < 99990 ->
  fst (update_nuts_mapping p bl w) = Ok (bl ++ PyStr.format_05d (n + 10)) /\
  String.length (bl ++ PyStr.format_05d (n + 10)) = 8%nat.
Proof.
  intros Hbl Hcsv _ Hnew Hmax Hn.
  destruct (five_digits n) as (Hlen & Hint & _); [lia |].
  destruct (five_digits (n + 10)) as (Hlen' & _ & _); [lia |].
  split.
  - unfold update_nuts_mapping. rewrite Hbl. simpl.
    unfold bind, read_mapping_csv, read_file, bind. rewrite Hcsv. simpl.
    rewrite (not_in_values_not_contains _ _ Hnew). unfold region_ids in Hmax.
    destruct (map nuts_id (List.filter _ mapping)) as [| n0 ns] eqn:Hids.
    + destruct Hmax as [[] _].
    + rewrite (max_greatest _ _ _ Hmax).
      assert (Hlast : PyStr.last_chars 5 (bl ++ PyStr.format_05d n)
                      = PyStr.format_05d n)
        by (rewrite <- Hlen; apply last_chars_append).
      rewrite Hlast, Hint. reflexivity.
  - rewrite length_append, Hlen', (region_code_length bl Hbl). reflexivity.
Qed.

Lemma update_nuts_mapping_next_witness :
  fst (update_nuts_mapping "4712" "DE1" two_regions_world)
  = Ok ("DE1" ++ PyStr.format_05d (10000 + 10)) /\
  String.length ("DE1" ++ PyStr.format_05d (10000 + 10)) = 8%nat.
Proof.
  apply (update_nuts_mapping_next "4712" "DE1" two_regions_world two_regions 10000).
  - reflexivity.
  - vm_compute. reflexivity.
  - reflexivity.
  - reflexivity.
  - split.
    + vm_compute. now left.
    + intros x Hx. vm_compute in Hx. destruct Hx as [<- | []]. reflexivity.
  - lia.
Defined.










Example register_all_sequence_ids :
  register_all ["W4712"; "W4713"; "W4714"] "DE1" two_regions_world
  = [Ok "DE110010"; Ok "DE110020"; Ok "DE110030"].
Proof. vm_compute. reflexivity. Qed.


(** ** Looking a provider id up *)

Lemma loc_unique (mapping : list Entry) (e : Entry) :
  List.filter (fun e' => String.eqb (provider_id e') (provider_id e)) mapping = [e] ->
  loc_nuts_id mapping (provider_id e) = Ok (IdStr (nuts_id e)).
Proof. intros H. unfold loc_nuts_id. now rewrite H. Qed.

Lemma registered_once (p nid : string) (mapping : list Entry) :
  ~ In p (map provider_id mapping) ->
  List.filter (fun e' => String.eqb (provider_id e') p)
    (sort_values nuts_id (mapping ++ [mkEntry p nid]))
  = [mkEntry p nid].
Proof.
  intros Hnew.
  pose proof (filter_perm (fun e' => String.eqb (provider_id e') p) _ _
                (sort_values_perm nuts_id (mapping ++ [mkEntry p nid]))) as HP.
  rewrite List.filter_app in HP. simpl in HP. rewrite String.eqb_refl in HP.
  rewrite (filter_none _ mapping) in HP.
  - simpl in HP. symmetry in HP. now apply Permutation_length_1_inv in HP.
  - intros e He. destruct (String.eqb (provider_id e) p) eqn:E; [| reflexivity].
    apply String.eqb_eq in E. subst p. exfalso. apply Hnew. now apply in_map.
Qed.

Lemma text_not_contained (p : string) (cells : list string) :
  Csv.is_text p = true -> Csv.contains p cells = false -> ~ In p cells.
Proof.
  intros Htext Hnot Hin. rewrite (text_contains _ _ Htext Hin) in Hnot. discriminate.
Qed.

(** X7.  [get_nuts_id_from_provider_id] on a table: a provider id that
    [pd.read_csv] keeps as text and that the table has once gives the
    [nuts_id] of its row, whatever the region code and [add_missing]
    are; a provider id that no row has raises a [ValueError] when
    [add_missing] is false.  Nothing is written in either case. *)
Theorem get_nuts_id_lookup
    (mapping : list Entry) (bl : string) (w : World) :
  files w !! nuts_mapping_csv = Some (MappingCsv mapping) ->
  (forall e add,
     Csv.is_text (provider_id e) = true ->
     has_region_prefix (nuts_id e) = true ->
     List.filter (fun e' => String.eqb (provider_id e') (provider_id e)) mapping = [e] ->
     get_nuts_id_from_provider_id (provider_id e) bl add w
     = (Ok (IdStr (nuts_id e)), w)) /\
  (forall p, ~ In p (map provider_id mapping) ->
     get_nuts_id_from_provider_id p bl false w
     = (Raise (ValueError ("Provider ID " ++ p ++ " not found in mapping.")), w)).
Proof.
  intros Hcsv. split.
  - intros e add Htext _ Honce.
    unfold get_nuts_id_from_provider_id, bind, read_mapping_csv, read_file, bind.
    rewrite Hcsv. simpl.
    rewrite text_contains; [| exact Htext |].
    + unfold lift. now rewrite loc_unique.
    + assert (Hin : In e (List.filter
                            (fun e' => String.eqb (provider_id e') (provider_id e)) mapping))
        by (rewrite Honce; now left).
      apply filter_In in Hin as [Hin _]. now apply in_map.
  - intros p Hp.
    unfold get_nuts_id_from_provider_id, bind, read_mapping_csv, read_file, bind.
    rewrite Hcsv. simpl.
    rewrite not_in_values_not_contains; [reflexivity |].
    apply not_true_is_false. intros E. apply in_values_In in E. contradiction.
Qed.

Lemma get_nuts_id_lookup_witness :
  get_nuts_id_from_provider_id "W4711" "no region" true text_ids_world
  = (Ok (IdStr "DE110000"), text_ids_world) /\
  get_nuts_id_from_provider_id "4799" "DE1" false text_ids_world
  = (Raise (ValueError "Provider ID 4799 not found in mapping."), text_ids_world).
Proof.
  destruct (get_nuts_id_lookup text_ids "no region" text_ids_world eq_refl)
    as [Hfound _].
  destruct (get_nuts_id_lookup text_ids "DE1" text_ids_world eq_refl)
    as [_ Hmissing].
  split.
  - apply (Hfound (mkEntry "W4711" "DE110000") true); reflexivity.
  - apply (Hmissing "4799"). simpl. intuition discriminate.
Defined.

(** A table of one provider id of digits: the lookup does not find the
    provider id that is there. *)
Example get_nuts_id_digits_not_found :
  fst (get_nuts_id_from_provider_id "4711" "DE1" false
         (mkWorld (<[nuts_mapping_csv := MappingCsv [mkEntry "4711" "DE110000"]]> ∅) []))
  = Raise (ValueError "Provider ID 4711 not found in mapping.").
Proof. reflexivity. Qed.



Lemma sort_values_sorted_id {A} (key : A -> string) (l : list A) :
  sorted_by key l -> sort_values key l = l.
Proof.
  unfold sorted_by. induction 1 as [| x l Hs IH Hd]; simpl; [reflexivity |].
  rewrite IH. destruct Hd as [| y l' Hxy]; simpl; [reflexivity |].
  now rewrite Hxy.
Qed.

Lemma get_nuts_mapping_csv (mapping : list Entry) (w : World) :
  files w !! nuts_mapping_json = Some (MappingJson mapping) ->
  get_nuts_mapping "csv" w = (Ok (AsDataFrame mapping), w).
Proof.
  intros H. unfold get_nuts_mapping, bind, read_file. now rewrite H.
Qed.

(** X9.  The JSON file follows the registration: after the successful
    registration of a provider id that [pd.read_csv] keeps as text, the
    mapping that the constructor of a station reads resolves the
    provider id to the identifier that the registration returned. *)
Theorem register_then_resolve
    (p bl : string) (w w1 : World) (nid : string) :
  Csv.is_text p = true ->
  update_nuts_mapping p bl w = (Ok nid, w1) ->
  exists rows,
    get_nuts_mapping "csv" w1 = (Ok (AsDataFrame rows), w1) /\
    resolve rows p = Ok (IdStr nid).
Proof.
  intros Htext H.
  apply update_nuts_mapping_ok in H as (mapping & Hcsv & Hnew & ->).
  apply (text_not_contained _ _ Htext) in Hnew.
  rewrite (sort_values_sorted_id nuts_id _ (sort_values_sorted nuts_id _)).
  eexists. split.
  - apply get_nuts_mapping_csv. simpl. apply lookup_insert_eq.
  - pose proof (registered_once p nid mapping Hnew) as Honce.
    assert (Hin : In (mkEntry p nid) (sort_values nuts_id (mapping ++ [mkEntry p nid]))).
    { rewrite (sort_values_perm nuts_id _), in_app_iff. right. now left. }
    unfold resolve.
    destruct (sort_values nuts_id (mapping ++ [mkEntry p nid])) as [| e0 rows] eqn:E;
      [contradiction |].
    rewrite (proj2 (in_values_In p _)) by (apply (in_map provider_id) in Hin; exact Hin).
    unfold loc_nuts_id. now rewrite Honce.
Qed.

Lemma register_then_resolve_witness :
  exists rows,
    get_nuts_mapping "csv" (snd (update_nuts_mapping "W4712" "DE1" two_regions_world))
    = (Ok (AsDataFrame rows), snd (update_nuts_mapping "W4712" "DE1" two_regions_world)) /\
    resolve rows "W4712" = Ok (IdStr "DE110010").
Proof.
  apply (register_then_resolve "W4712" "DE1" two_regions_world).
  - reflexivity.
  - vm_compute. reflexivity.
Defined.


(** ** Paths *)





Example get_input_path_DE2 :
  get_input_path "DE2" = Ok ["Q_and_W"; "BY_Bayern"] /\
  get_input_path "DE3"
  = Raise (ValueError "No default path for Bundesland DE3 available.").
Proof. split; reflexivity. Qed.

(** ** The constructor reads and does not write *)

Lemma pure_ret {A} (a : A) : pure (ret a).
Proof. intros w r w' H. now injection H. Qed.

Lemma pure_raise {A} (e : exn) : pure (@raise A e).
Proof. intros w r w' H. now injection H. Qed.

Lemma pure_lift {A} (x : result A) : pure (lift x).
Proof. intros w r w' H. now injection H. Qed.

Lemma pure_exists (p : Path) : pure (exists_ p).
Proof. intros w r w' H. now injection H. Qed.

Lemma pure_read_file (p : Path) : pure (read_file p).
Proof. intros w r w' H. now injection H. Qed.

Lemma pure_bind {A B} (m : M A) (k : A -> M B) :
  pure m -> (forall a, pure (k a)) -> pure (bind m k).
Proof.
  intros Hm Hk w r w'. unfold bind.
  destruct (m w) as [[a | e] w1] eqn:E; intros H.
  - apply Hk in H. apply Hm in E. congruence.
  - injection H as <- <-. now apply Hm in E.
Qed.

Lemma pure_get_nuts_mapping (format : string) : pure (get_nuts_mapping format).
Proof. intros w r w' H. now apply get_nuts_mapping_pure in H. Qed.

Lemma pure_get_metadata (self : Station1h) : pure (get_metadata self).
Proof. intros w r w' H. now apply get_metadata_pure in H. Qed.

Lemma pure_Station1h_init (g : string) : pure (Station1h_init g).
Proof.
  unfold Station1h_init.
  apply pure_bind; [apply pure_get_nuts_mapping |]. intros [| mapping |];
    try apply pure_raise.
  apply pure_bind; [apply pure_lift |]. intros gid.
  apply pure_bind; [apply pure_lift |]. intros out.
  destruct gid as [| s | vs]; try apply pure_raise.
  apply pure_bind; [apply pure_exists |]. intros ex.
  apply pure_bind; [apply pure_exists |]. intros [|].
  - apply pure_bind; [apply pure_get_metadata |]. intros [| r rows];
      [apply pure_raise | apply pure_ret].
  - apply pure_ret.
Qed.

Lemma pure_get_data (self : Station1h) (date_index : bool) :
  pure (get_data self date_index).
Proof.
  unfold get_data. destruct (self_data_path self) as [p |]; [| apply pure_raise].
  apply pure_bind; [apply pure_read_file |]. intros [[| | | l d |] |];
    try apply pure_raise.
  destruct date_index; [apply pure_lift | apply pure_ret].
Qed.

(** X12.  Building a station object, reading its metadata and reading
    its data write nothing, whether they succeed or raise. *)
Theorem station_reads_write_nothing
    (g : string) (self : Station1h) (date_index : bool) :
  pure (Station1h_init g) /\ pure (get_metadata self) /\ pure (has_metadata self) /\
  pure (get_data self date_index).
Proof.
  split; [apply pure_Station1h_init |].
  split; [apply pure_get_metadata |].
  split; [apply pure_exists | apply pure_get_data].
Qed.

(** ** What the constructor builds *)

Lemma resolve_in_nuts_ids (mapping : list Entry) (g s : string) :
  resolve mapping g = Ok (IdStr s) -> In s (map nuts_id mapping).
Proof.
  unfold resolve. destruct mapping as [| e0 mapping']; [discriminate |].
  set (m := e0 :: mapping').
  destruct (in_values g (map provider_id m)).
  - unfold loc_nuts_id.
    destruct (List.filter _ m) as [| e [| e' l]] eqn:Hf; try discriminate.
    intros H. injection H as <-. apply in_map.
    assert (Hin : In e (List.filter (fun e1 => String.eqb (provider_id e1) g) m))
      by (rewrite Hf; now left).
    now apply filter_In in Hin.
  - destruct (in_values g (map nuts_id m)) eqn:E; [| discriminate].
    intros H. injection H as <-. now apply in_values_In.
Qed.

Lemma Station1h_init_inv (g : string) (w w' : World) (self : Station1h) :
  Station1h_init g w = (Ok self, w') ->
  exists mapping,
    files w !! nuts_mapping_json = Some (MappingJson mapping) /\
    resolve mapping g = Ok (IdStr (self_gauge_id self)) /\
    get_output_path (IdStr (self_gauge_id self)) = Ok (self_output_path self) /\
    match files w !! meta_file self with
    | None => self = bare_station (self_gauge_id self) (self_output_path self)
                       (self_data_path self)
    | Some (MetadataCsv (r :: rows)) =>
        self = mkStation1h (self_gauge_id self) (self_output_path self)
                 (self_data_path self) (Some (r :: rows))
                 (gauge_name r) (meta_provider_id r) (water_body_name r)
                 (federal_state r) (lat r) (lon r) (northing r) (easting r)
                 (elev_metadata r) (area_metadata r)
    | Some _ => False
    end.
Proof.
  unfold Station1h_init. intros H.
  apply bind_ok in H as (m & w1 & Hm & H).
  pose proof (get_nuts_mapping_pure _ _ _ _ Hm) as ->.
  unfold get_nuts_mapping, bind, read_file in Hm.
  destruct (files w !! nuts_mapping_json) as [[| mapping0 | | |] |];
    try discriminate.
  destruct m as [| mapping |]; try discriminate.
  assert (mapping0 = mapping) as ->.
  { simpl in Hm. unfold ret in Hm. congruence. }
  clear Hm. exists mapping. split; [reflexivity |].
  apply bind_ok in H as (gid & w1 & Hgid & H). apply lift_ok in Hgid as [Hgid ->].
  apply bind_ok in H as (out & w1 & Hout & H). apply lift_ok in Hout as [Hout ->].
  destruct gid as [| s | vs]; try discriminate.
  apply bind_ok in H as (ex & w1 & Hex & H). apply exists_ok in Hex as [-> ->].
  apply bind_ok in H as (hm & w1 & Hhm & H). apply exists_ok in Hhm as [-> ->].
  unfold meta_file in *.
  set (dp := if bool_decide (is_Some (files w !! (out // (s ++ "_data.csv"))))
             then Some (out // (s ++ "_data.csv")) else None) in *.
  change (self_output_path (bare_station s out dp)) with out in *.
  change (self_gauge_id (bare_station s out dp)) with s in *.
  destruct (files w !! (out // (s ++ "_metadata.csv"))) as [f |] eqn:Hf.
  2:{ rewrite bool_decide_eq_false_2 in H by (intros [? ?]; discriminate).
      cbv [ret] in H. injection H as <- _. simpl. rewrite Hf. auto. }
  - rewrite bool_decide_eq_true_2 in H by eauto.
    apply bind_ok in H as (meta & w1 & Hmeta & H).
    pose proof (get_metadata_pure _ _ _ _ Hmeta) as ->.
    unfold get_metadata, bind, has_metadata, exists_, read_file, meta_file in Hmeta.
    simpl in Hmeta. rewrite Hf in Hmeta.
    rewrite bool_decide_eq_true_2 in Hmeta by eauto. simpl in Hmeta.
    rewrite ?Hf in Hmeta.
    destruct f as [| | rows | |]; try discriminate.
    injection Hmeta as <-.
    destruct rows as [| r rows].
    { cbv [raise] in H. discriminate H. }
    cbv [ret] in H. injection H as <- _. simpl. rewrite Hf. auto.
Qed.

(** X13.  A station object that the constructor has built has an
    identifier that is a [nuts_id] of the mapping, and that is a region
    code or has eight characters; its directory is the one of
    [get_output_path]; its [data_path] is the data file if that file
    exists, and [None] otherwise. *)
Theorem Station1h_init_sound (g : string) (w w' : World) (self : Station1h) :
  Station1h_init g w = (Ok self, w') ->
  exists mapping,
    files w !! nuts_mapping_json = Some (MappingJson mapping) /\
    In (self_gauge_id self) (map nuts_id mapping) /\
    (in_dict (self_gauge_id self) _INPUT_DEFAULT_PATHS = true \/
     String.length (self_gauge_id self) = 8%nat) /\
    get_output_path (IdStr (self_gauge_id self)) = Ok (self_output_path self) /\
    self_data_path self
    = if bool_decide (is_Some (files w !! data_file self))
      then Some (data_file self) else None.
Proof.
  intros H.
  destruct (Station1h_init_ok _ _ _ _ H) as [_ Hdata].
  apply Station1h_init_inv in H as (mapping & Hjson & Hres & Hout & _).
  exists mapping. repeat split; trivial.
  - eapply resolve_in_nuts_ids; eauto.
  - unfold get_output_path in Hout.
    destruct (in_dict _ _); [now left |].
    destruct (String.length (self_gauge_id self) =? 8)%nat eqn:E; [| discriminate].
    right. now apply Nat.eqb_eq.
Qed.

Lemma Station1h_init_sound_witness :
  exists mapping,
    files one_station_world !! nuts_mapping_json = Some (MappingJson mapping) /\
    In (self_gauge_id station_DE110000) (map nuts_id mapping) /\
    (in_dict (self_gauge_id station_DE110000) _INPUT_DEFAULT_PATHS = true \/
     String.length (self_gauge_id station_DE110000) = 8%nat) /\
    get_output_path (IdStr (self_gauge_id station_DE110000))
    = Ok (self_output_path station_DE110000) /\
    self_data_path station_DE110000
    = if bool_decide (is_Some (files one_station_world !! data_file station_DE110000))
      then Some (data_file station_DE110000) else None.
Proof.
  apply (Station1h_init_sound "4711" one_station_world one_station_world).
  vm_compute. reflexivity.
Defined.






(** ** [save_data]: what is accepted and what is written *)

Lemma has_column_get (c : string) (df : DataFrame) :
  Frame.has_column c df = match Frame.get_column c df with Some _ => true | None => false end.
Proof.
  unfold Frame.has_column, Frame.get_column. rewrite existsb_find.
  now destruct (find _ _).
Qed.

Lemma get_column_assign_none (c c' : string) (df : DataFrame) :
  Frame.get_column c (Frame.assign_none c' df)
  = match Frame.get_column c df with
    | Some s => Some s
    | None => if String.eqb c c' then Some (Numbers (repeat None (Frame.rows df))) else None
    end.
Proof.
  unfold Frame.get_column, Frame.assign_none. simpl.
  induction (columns df) as [| [k s] l IH]; simpl.
  - now destruct (String.eqb c c').
  - destruct (String.eqb c k); [reflexivity | exact IH].
Qed.

Lemma get_column_with_value_columns (data : DataFrame) :
  Frame.get_column "date" (with_value_columns data) = Frame.get_column "date" data /\
  Frame.get_column "discharge_vol_obs" (with_value_columns data)
  = Some (value_column "discharge_vol_obs" data) /\
  Frame.get_column "water_level_obs" (with_value_columns data)
  = Some (value_column "water_level_obs" data).
Proof.
  unfold with_value_columns, value_column.
  destruct (Frame.get_column "discharge_vol_obs" data) as [q |] eqn:Hq;
    destruct (Frame.get_column "water_level_obs" data) as [l |] eqn:Hl;
    repeat (rewrite ?has_column_get, ?get_column_assign_none, ?Hq, ?Hl; simpl);
    destruct (Frame.get_column "date" data); auto.
Qed.

Lemma project_three_run (df : DataFrame) (d q l : Series) :
  Frame.get_column "date" df = Some d ->
  Frame.get_column "discharge_vol_obs" df = Some q ->
  Frame.get_column "water_level_obs" df = Some l ->
  Frame.project ["date"; "discharge_vol_obs"; "water_level_obs"] df
  = Ok (mkDataFrame (index df)
          [("date", d); ("discharge_vol_obs", q); ("water_level_obs", l)]).
Proof.
  intros Hd Hq Hl. unfold Frame.project. simpl.
  rewrite !has_column_get, Hd, Hq, Hl. reflexivity.
Qed.

Lemma save_data_no_date (self : Station1h) (data : DataFrame) (w : World) :
  Frame.get_column "date" data = None ->
  save_data self (PyDataFrame data) w = (Raise (KeyError "['date'] not in index"), w).
Proof.
  intros Hd. rewrite save_data_unfold.
  destruct (get_column_with_value_columns data) as (Hd' & Hq & Hl).
  rewrite Hd in Hd'.
  unfold bind, lift, Frame.project. simpl.
  rewrite !has_column_get, Hd', Hq, Hl. reflexivity.
Qed.

Lemma save_data_date (self : Station1h) (data : DataFrame) (w : World) (d : Series) :
  Frame.get_column "date" data = Some d ->
  save_data self (PyDataFrame data) w
  = let idx := Frame.index_of_series d in
    if Frame.duplicated_any idx
    then (Raise (ValueError (self_gauge_id self ++ ": Data contains duplicated dates.")), w)
    else if negb (Frame.is_monotonic_increasing idx)
    then (Raise (ValueError (self_gauge_id self ++ ": Data is not sorted by date.")), w)
    else if negb (Frame.all_steps_one_hour idx)
    then (Raise (ValueError (self_gauge_id self
                             ++ ": Not all dates are in hourly resolution.")), w)
    else match Frame.tz_str idx with
         | Raise e => (Raise e, w)
         | Ok tz =>
             if negb (String.eqb tz "UTC")
             then (Raise (ValueError (self_gauge_id self
                    ++ ": Data is not in UTC+0 or it misses the timezone information.")), w)
             else (Ok tt,
                   mkWorld
                     (<[data_file self :=
                          DataCsv "date"
                            (mkDataFrame idx
                               [("discharge_vol_obs", value_column "discharge_vol_obs" data);
                                ("water_level_obs", value_column "water_level_obs" data)])]>
                        (files w))
                     (warned w))
         end.
Proof.
  intros Hd. rewrite save_data_unfold.
  destruct (get_column_with_value_columns data) as (Hd' & Hq & Hl).
  rewrite Hd in Hd'.
  unfold bind at 1. unfold lift at 1.
  rewrite (project_three_run _ _ _ _ Hd' Hq Hl).
  unfold bind, lift, raise, Frame.has_column, Frame.set_index, Frame.get_column.
  simpl.
  destruct (Frame.duplicated_any _); [reflexivity |].
  destruct (Frame.is_monotonic_increasing _); [| reflexivity].
  destruct (Frame.all_steps_one_hour _); [| reflexivity].
  simpl. destruct (Frame.tz_str _) as [tz | e]; [| reflexivity].
  destruct (String.eqb tz "UTC"); reflexivity.
Qed.

(** X15.  Whenever [save_data] raises, nothing has been written and
    nothing has been warned about: there is no file with a part of the
    series. *)
Theorem save_data_failure_writes_nothing
    (self : Station1h) (data : pyobject) (w w' : World) (e : exn) :
  save_data self data w = (Raise e, w') -> w' = w.
Proof.
  destruct data as [data | repr].
  - destruct (Frame.get_column "date" data) as [d |] eqn:Hd.
    + rewrite (save_data_date _ _ _ _ Hd). cbv zeta.
      destruct (Frame.duplicated_any _); [intros H; now injection H |].
      destruct (negb (Frame.is_monotonic_increasing _)); [intros H; now injection H |].
      destruct (negb (Frame.all_steps_one_hour _)); [intros H; now injection H |].
      destruct (Frame.tz_str _) as [tz | e']; [| intros H; now injection H].
      destruct (negb (String.eqb tz "UTC")); [intros H; now injection H | discriminate].
    + rewrite (save_data_no_date _ _ _ Hd). intros H; now injection H.
  - simpl. unfold raise. intros H; now injection H.
Qed.

Lemma save_data_failure_writes_nothing_witness :
  snd (save_data station_DE110000 (PyDataFrame gap_frame) one_station_world)
  = one_station_world.
Proof.
  apply (save_data_failure_writes_nothing station_DE110000 (PyDataFrame gap_frame)
           one_station_world _
           (ValueError "DE110000: Not all dates are in hourly resolution.")).
  vm_compute. reflexivity.
Defined.

Lemma one_hour_pos : 0 < Frame.one_hour.
Proof. reflexivity. Qed.

Lemma hourly_from_S (t0 : Z) (n : nat) :
  hourly_from t0 (S n) = t0 :: hourly_from (t0 + Frame.one_hour) n.
Proof.
  unfold hourly_from. simpl. f_equal; [lia |].
  rewrite <- seq_shift, map_map. apply map_ext. intros k. lia.
Qed.

Lemma steps_hourly (l : list Z) :
  Frame.pairwise (fun a b => b - a =? Frame.one_hour) l = true ->
  l = hourly_from (hd 0 l) (length l).
Proof.
  induction l as [| a [| b l] IH]; intros H.
  - reflexivity.
  - simpl. unfold hourly_from. simpl. f_equal. lia.
  - change (Frame.pairwise _ (a :: b :: l))
      with ((b - a =? Frame.one_hour)
            && Frame.pairwise (fun a b => b - a =? Frame.one_hour) (b :: l)) in H.
    apply andb_true_iff in H as [Hab H]. apply Z.eqb_eq in Hab.
    change (length (a :: b :: l)) with (S (length (b :: l))).
    rewrite hourly_from_S. simpl hd. f_equal.
    rewrite (IH H) at 1. simpl hd. f_equal. lia.
Qed.

Lemma hourly_steps (t0 : Z) (n : nat) :
  Frame.pairwise (fun a b => b - a =? Frame.one_hour) (hourly_from t0 n) = true.
Proof.
  revert t0. induction n as [| [| n] IH]; intros t0; try reflexivity.
  rewrite hourly_from_S. specialize (IH (t0 + Frame.one_hour)).
  rewrite hourly_from_S in IH |- *.
  change (Frame.pairwise ?r (?a :: ?b :: ?l)) with (r a b && Frame.pairwise r (b :: l)).
  rewrite IH, andb_true_r. apply Z.eqb_eq. lia.
Qed.

Lemma steps_above (a : Z) (l : list Z) :
  Frame.pairwise (fun a b => b - a =? Frame.one_hour) (a :: l) = true ->
  Forall (fun x => a < x) l.
Proof.
  revert a. induction l as [| b l IH]; intros a H; [constructor |].
  change (Frame.pairwise _ (a :: b :: l))
    with ((b - a =? Frame.one_hour)
          && Frame.pairwise (fun a b => b - a =? Frame.one_hour) (b :: l)) in H.
  apply andb_true_iff in H as [Hab H]. apply Z.eqb_eq in Hab.
  pose proof one_hour_pos.
  constructor; [lia |].
  eapply List.Forall_impl; [| exact (IH b H)]. simpl. intros x Hx. lia.
Qed.

Lemma steps_no_duplicates (l : list Z) :
  Frame.pairwise (fun a b => b - a =? Frame.one_hour) l = true ->
  Frame.has_duplicates Z.eqb l = false /\ Frame.pairwise Z.leb l = true.
Proof.
  induction l as [| a l IH]; intros H; [split; reflexivity |].
  pose proof (steps_above a l H) as Habove.
  assert (Htail : Frame.pairwise (fun a b => b - a =? Frame.one_hour) l = true).
  { destruct l as [| b l]; [reflexivity |].
    change (Frame.pairwise _ (a :: b :: l))
      with ((b - a =? Frame.one_hour)
            && Frame.pairwise (fun a b => b - a =? Frame.one_hour) (b :: l)) in H.
    now apply andb_true_iff in H as [_ H]. }
  destruct (IH Htail) as [Hdup Hmono]. split.
  - simpl. rewrite Hdup, orb_false_r.
    apply not_true_is_false. intros E. apply existsb_exists in E as [x [Hx E]].
    apply Z.eqb_eq in E. subst x.
    rewrite List.Forall_forall in Habove. specialize (Habove a Hx). lia.
  - destruct l as [| b l]; [reflexivity |].
    change (Frame.pairwise ?r (?a :: ?b :: ?l)) with (r a b && Frame.pairwise r (b :: l)).
    rewrite Hmono, andb_true_r. apply Z.leb_le.
    inversion Habove; subst. lia.
Qed.

(** X16.  [save_data] accepts a data frame, with columns of different
    names, if and only if its column [date] holds timestamps in UTC that
    are one hour apart, [t0], [t0 + 1h], [t0 + 2h] and so on; timestamps
    that are one hour apart pass the checks for duplicates and for
    order. *)
Theorem save_data_accepts_iff (self : Station1h) (data : DataFrame) (w : World) :
  List.NoDup (map fst (columns data)) ->
  fst (save_data self (PyDataFrame data) w) = Ok tt <->
  exists t0 n,
    Frame.get_column "date" data = Some (Datetimes (Some "UTC") (hourly_from t0 n)).
Proof.
  intros _. split.
  - destruct (Frame.get_column "date" data) as [d |] eqn:Hd;
      [| rewrite (save_data_no_date _ _ _ Hd); discriminate].
    rewrite (save_data_date _ _ _ _ Hd). cbv zeta.
    destruct d as [tz stamps | cells]; simpl.
    + destruct (Frame.has_duplicates Z.eqb stamps); [discriminate |].
      destruct (Frame.pairwise Z.leb stamps); [| discriminate]. simpl.
      destruct (Frame.pairwise _ stamps) eqn:Hsteps; [| discriminate]. simpl.
      destruct tz as [z |]; [| discriminate].
      destruct (String.eqb z "UTC") eqn:Hz; [| discriminate].
      apply String.eqb_eq in Hz. subst z. intros _.
      exists (hd 0 stamps), (length stamps). now rewrite <- steps_hourly.
    + destruct (Frame.has_duplicates _ cells); [discriminate |].
      destruct (forallb _ cells && Frame.pairwise _ cells); [| discriminate]. simpl.
      destruct (length cells <=? 1)%nat; discriminate.
  - intros (t0 & n & Hd). rewrite (save_data_date _ _ _ _ Hd). cbv zeta. simpl.
    destruct (steps_no_duplicates _ (hourly_steps t0 n)) as [Hdup Hmono].
    now rewrite Hdup, Hmono, hourly_steps.
Qed.

Lemma save_data_accepts_iff_witness :
  fst (save_data station_DE110000 (PyDataFrame three_hours) one_station_world) = Ok tt /\
  exists t0 n,
    Frame.get_column "date" three_hours = Some (Datetimes (Some "UTC") (hourly_from t0 n)).
Proof.
  assert (Hlabels : List.NoDup (map fst (columns three_hours)))
    by (repeat constructor; simpl; intuition discriminate).
  destruct (save_data_accepts_iff station_DE110000 three_hours one_station_world Hlabels)
    as [Hto Hfrom].
  assert (H : fst (save_data station_DE110000 (PyDataFrame three_hours) one_station_world)
              = Ok tt)
    by (apply Hfrom; exists 0, 3%nat; vm_compute; reflexivity).
  split; [exact H | exact (Hto H)].
Defined.

(** X17.  What a successful [save_data] of a frame with columns of
    different names leaves: the one file [<gauge_id>_data.csv] of the
    station, with the timestamps of the column [date] as its index and
    the two columns [discharge_vol_obs] and [water_level_obs], each as it
    was in the input or, if the input did not have it, without values.  No other column is written, no other
    file is touched and nothing is warned about. *)
Theorem save_data_written
    (self : Station1h) (data : DataFrame) (w w2 : World) :
  List.NoDup (map fst (columns data)) ->
  save_data self (PyDataFrame data) w = (Ok tt, w2) ->
  exists stamps,
    Frame.get_column "date" data = Some (Datetimes (Some "UTC") stamps) /\
    w2 = mkWorld (<[data_file self := data_csv stamps data]> (files w)) (warned w).
Proof.
  intros _.
  destruct (Frame.get_column "date" data) as [d |] eqn:Hd;
    [| rewrite (save_data_no_date _ _ _ Hd); discriminate].
  rewrite (save_data_date _ _ _ _ Hd). cbv zeta.
  destruct (Frame.duplicated_any _); [discriminate |].
  destruct (negb (Frame.is_monotonic_increasing _)); [discriminate |].
  destruct (negb (Frame.all_steps_one_hour _)); [discriminate |].
  destruct d as [[z |] stamps | cells]; simpl; try discriminate.
  destruct (String.eqb z "UTC") eqn:Hz; simpl; [| discriminate].
  apply String.eqb_eq in Hz. subst z.
  intros H. injection H as <-. now exists stamps.
Qed.

Lemma save_data_written_witness :
  exists stamps,
    Frame.get_column "date" three_hours = Some (Datetimes (Some "UTC") stamps) /\
    snd (save_data station_DE110000 (PyDataFrame three_hours) one_station_world)
    = mkWorld (<[data_file station_DE110000 := data_csv stamps three_hours]>
                 (files one_station_world))
              (warned one_station_world).
Proof.
  apply (save_data_written station_DE110000 three_hours one_station_world).
  - repeat constructor; simpl; intuition discriminate.
  - vm_compute. reflexivity.
Defined.

(** X18.  A station object built after a successful [save_data] of a
    frame with columns of different names reads the file: [get_data] gives a frame with a range index and the columns
    [date], [discharge_vol_obs] and [water_level_obs], and with
    [date_index] a frame with the two value columns. *)
Theorem get_data_of_new_object
    (self self' : Station1h) (data : DataFrame) (g : string) (w w2 w3 : World) :
  List.NoDup (map fst (columns data)) ->
  save_data self (PyDataFrame data) w = (Ok tt, w2) ->
  Station1h_init g w2 = (Ok self', w3) ->
  data_file self' = data_file self ->
  exists d d',
    get_data self' false w3 = (Ok d, w3) /\
    map fst (columns d) = ["date"; "discharge_vol_obs"; "water_level_obs"] /\
    (exists n, index d = RangeIndex n) /\
    get_data self' true w3 = (Ok d', w3) /\
    map fst (columns d') = ["discharge_vol_obs"; "water_level_obs"].
Proof.
  intros _ Hsave Hinit Hfile.
  destruct (Frame.get_column "date" data) as [dates |] eqn:Hd;
    [| rewrite (save_data_no_date _ _ _ Hd) in Hsave; discriminate].
  rewrite (save_data_date _ _ _ _ Hd) in Hsave. cbv zeta in Hsave.
  destruct (Frame.duplicated_any _); [discriminate |].
  destruct (negb (Frame.is_monotonic_increasing _)); [discriminate |].
  destruct (negb (Frame.all_steps_one_hour _)); [discriminate |].
  destruct (Frame.tz_str _) as [tz | e]; [| discriminate].
  destruct (negb (String.eqb tz "UTC")); [discriminate |].
  injection Hsave as <-.
  apply Station1h_init_ok in Hinit as [-> Hpath].
  rewrite Hfile in Hpath. simpl in Hpath. rewrite lookup_insert_eq in Hpath.
  rewrite bool_decide_eq_true_2 in Hpath by eauto.
  unfold get_data, bind, read_file. rewrite Hpath. simpl.
  rewrite lookup_insert_eq.
  eexists _, _. split; [reflexivity |]. split; [reflexivity |].
  split; [eexists; reflexivity |]. split; reflexivity.
Qed.

Lemma get_data_of_new_object_witness :
  exists d d',
    get_data station_DE110000_with_data false saved_world = (Ok d, saved_world) /\
    map fst (columns d) = ["date"; "discharge_vol_obs"; "water_level_obs"] /\
    (exists n, index d = RangeIndex n) /\
    get_data station_DE110000_with_data true saved_world = (Ok d', saved_world) /\
    map fst (columns d') = ["discharge_vol_obs"; "water_level_obs"].
Proof.
  apply (get_data_of_new_object station_DE110000 station_DE110000_with_data
           three_hours "4711" one_station_world saved_world saved_world).
  - repeat constructor; simpl; intuition discriminate.
  - vm_compute. reflexivity.
  - vm_compute. reflexivity.
  - reflexivity.
Defined.

(** ** Metadata: the file of the station and the table *)

Lemma append_inv_head (s a b : string) : s ++ a = s ++ b -> a = b.
Proof.
  induction s as [| c s IH]; simpl; intros H; [exact H |].
  injection H as H. now apply IH.
Qed.

Lemma file_name_suffix (s suffix name : string) :
  s ++ suffix = name -> PyStr.last_chars (String.length suffix) name = suffix.
Proof. intros <-. apply last_chars_append. Qed.

Lemma joinpath_inj (p q : Path) (a b : string) : p // a = q // b -> p = q /\ a = b.
Proof. unfold joinpath. apply app_inj_tail. Qed.

Lemma meta_file_not_mapping (self : Station1h) :
  meta_file self <> nuts_mapping_csv /\ meta_file self <> nuts_mapping_json.
Proof.
  unfold meta_file, nuts_mapping_csv, nuts_mapping_json.
  split; intros E; apply joinpath_inj in E as [_ E];
    apply file_name_suffix in E; vm_compute in E; discriminate E.
Qed.

Lemma meta_file_not_data_file (self : Station1h) : data_file self <> meta_file self.
Proof.
  unfold meta_file, data_file. intros E. apply joinpath_inj in E as [_ E].
  apply append_inv_head in E. discriminate E.
Qed.

Lemma data_file_not_table (self : Station1h) : data_file self <> metadata1h_csv.
Proof.
  unfold data_file, metadata1h_csv. intros E. apply joinpath_inj in E as [_ E].
  apply file_name_suffix in E. vm_compute in E. discriminate E.
Qed.




(** X20.  [save_metadata] writes the metadata file of the station and
    the table, and nothing else: the two mapping files, the data file of
    the station and every other file are as they were, and nothing is
    warned about. *)
Theorem save_metadata_frame
    (self : Station1h) (row : MetaRow) (w w1 : World) (r : result unit) :
  save_metadata self row w = (r, w1) ->
  (forall path, path <> meta_file self -> path <> metadata1h_csv ->
                files w1 !! path = files w !! path) /\
  files w1 !! nuts_mapping_csv = files w !! nuts_mapping_csv /\
  files w1 !! nuts_mapping_json = files w !! nuts_mapping_json /\
  files w1 !! data_file self = files w !! data_file self /\
  warned w1 = warned w.
Proof.
  intros H.
  assert (Hframe : (forall path, path <> meta_file self -> path <> metadata1h_csv ->
                      files w1 !! path = files w !! path) /\ warned w1 = warned w).
  { rewrite save_metadata_run in H. cbv zeta in H.
    destruct (files w !! metadata1h_csv) as [[| | meta | |] |];
      injection H as _ <-; simpl; (split; [| reflexivity]);
      intros path Hm Ht; rewrite !lookup_insert_ne by congruence; reflexivity. }
  destruct Hframe as [Hframe Hwarned].
  destruct (meta_file_not_mapping self) as [Hcsv Hjson].
  split; [exact Hframe |].
  split; [apply Hframe; [congruence | discriminate] |].
  split; [apply Hframe; [congruence | discriminate] |].
  split; [| exact Hwarned].
  apply Hframe; [apply meta_file_not_data_file | apply data_file_not_table].
Qed.

Lemma save_metadata_frame_witness :
  (forall path, path <> meta_file station_DE110000 -> path <> metadata1h_csv ->
     files (snd (save_metadata station_DE110000 (row_DE110000 "Plochingen") saved_world))
       !! path
     = files saved_world !! path) /\
  files (snd (save_metadata station_DE110000 (row_DE110000 "Plochingen") saved_world))
    !! nuts_mapping_csv
  = files saved_world !! nuts_mapping_csv /\
  files (snd (save_metadata station_DE110000 (row_DE110000 "Plochingen") saved_world))
    !! nuts_mapping_json
  = files saved_world !! nuts_mapping_json /\
  files (snd (save_metadata station_DE110000 (row_DE110000 "Plochingen") saved_world))
    !! data_file station_DE110000
  = files saved_world !! data_file station_DE110000 /\
  warned (snd (save_metadata station_DE110000 (row_DE110000 "Plochingen") saved_world))
  = warned saved_world.
Proof.
  apply (save_metadata_frame station_DE110000 (row_DE110000 "Plochingen")
           saved_world _ (Ok tt)).
  vm_compute. reflexivity.
Defined.

